(** * terraform-provider-usgdns: the HTTP client and the provider adapters

    A shallow embedding of [internal/usgdns/usgdns.go] (the REST client) and
    of the provider package (provider bootstrap, record resource, records
    data source), with the properties the specification states about them.

    Go values are modelled as follows.
    - [string] is a byte string: Rocq's [string].
    - [error] is represented by its message text; wrapping with [%w] in
      [fmt.Errorf] is concatenation of texts.  A Go pair [(T, error)] is a
      [result T].
    - [int] status codes are [Z]; [%d] is stdpp's decimal [pretty].
    - The packages the code calls but does not define (net/url,
      encoding/json, net/http) are the fields of the class [Runtime];
      every theorem about the client holds for all of its instances. *)

From Stdlib Require Import ZArith.
From stdpp Require Import base decidable option list strings gmap pretty.

Local Open Scope Z_scope.

(** ** Go results *)

Definition error := string.

Inductive result (A : Type) : Type :=
| Ok (a : A)
| Err (e : error).
Arguments Ok {A} a.
Arguments Err {A} e.

Global Instance result_ret : MRet result := fun A a => Ok a.
Global Instance result_bind : MBind result := fun A B f m =>
  match m with Ok a => f a | Err e => Err e end.
Global Instance result_fmap : FMap result := fun A B f m =>
  match m with Ok a => Ok (f a) | Err e => Err e end.

(** [fmt.Errorf("<prefix>: %w", err)] *)
Definition wrap (prefix : string) (err : error) : error :=
  prefix +:+ ": " +:+ err.

(** The line feed and the double quote, as one-byte strings. *)
Definition newline : string :=
  String (Stdlib.Strings.Ascii.ascii_of_nat 10) EmptyString.
Definition dquote : string :=
  String (Stdlib.Strings.Ascii.ascii_of_nat 34) EmptyString.

(** [contains s t]: the text [t] occurs in [s]. *)
Definition contains (s t : string) : Prop :=
  exists pre post : string, s = pre +:+ t +:+ post.

(** ** package strings *)

Module strings.

(** [strings.HasSuffix]: [len(s) >= len(suffix) &&
    s[len(s)-len(suffix):] == suffix]. *)
Definition HasSuffix (s suffix : string) : bool :=
  (String.length suffix <=? String.length s)%nat &&
  String.eqb
    (String.substring (String.length s - String.length suffix)
       (String.length suffix) s)
    suffix.

(** [strings.TrimSuffix]: [s] without the trailing [suffix], or [s]
    itself when it does not end with [suffix]. *)
Definition TrimSuffix (s suffix : string) : string :=
  if HasSuffix s suffix
  then String.substring 0 (String.length s - String.length suffix) s
  else s.

End strings.

(** ** The record type of the remote API

    [usgdns.Record] of [github.com/rclsilver-org/usg-dns-api/db]: the three
    string fields the provider reads. *)
Module db.

Record DnsRecord : Type := mkRecord {
  ID : string;
  Name : string;
  Target : string;
}.

Global Instance DnsRecord_eq_dec : EqDecision DnsRecord.
Proof. solve_decision. Defined.

End db.
Abbreviation DnsRecord := db.DnsRecord.

(** ** package net/http, as far as the client uses it *)

Module http.

Definition MethodGet : string := "GET".
Definition MethodPost : string := "POST".
Definition MethodPut : string := "PUT".
Definition MethodDelete : string := "DELETE".

Definition StatusOK : Z := 200.
Definition StatusCreated : Z := 201.
Definition StatusNoContent : Z := 204.

(** [http.Header]: a map from header names to their values. *)
Module Header.
Abbreviation t := (gmap string (list string)).

(** [h.Set(key, value)] replaces the values of [key] by the single
    [value].  The only key the client sets is already in canonical
    form, so the canonicalisation of the key is the identity here. *)
Definition Set_ (key value : string) (h : t) : t := <[key := [value]]> h.

(** [h.Get(key)]: the first value of [key], or the empty string. *)
Definition Get (key : string) (h : t) : string :=
  match h !! key with
  | Some (v :: _) => v
  | _ => ""
  end.
End Header.

(** [http.Request]: method, URL text, header and the body bytes (if
    any) that the client hands to the transport. *)
Record Request : Type := mkRequest {
  Method : string;
  URL : string;
  Headers : Header.t;
  ReqBody : option string;
}.

(** [http.Response]: the status code and the outcome of reading the
    body with [io.ReadAll]. *)
Record Response : Type := mkResponse {
  StatusCode : Z;
  Body : result string;
}.

End http.

(** ** The packages behind the client *)

Class Runtime : Type := {
  (** The parsed URL of net/url, with [url.Parse] and its [String] method. *)
  url_URL : Type;
  url_Parse : string -> result url_URL;
  url_String : url_URL -> string;
  (** [json.Marshal] of a [usgdns.Record]. *)
  json_Marshal : DnsRecord -> result string;
  (** [json.Unmarshal] into a [usgdns.Record], into a [[]usgdns.Record]
      and into the anonymous struct of [getError], whose only field
      [Message] has the JSON name [message] (the result is the value of
      that field afterwards). *)
  json_Unmarshal_Record : string -> result DnsRecord;
  json_Unmarshal_Records : string -> result (list DnsRecord);
  json_Unmarshal_Message : string -> result string;
  (** The checks of [http.NewRequest] on the method and the URL text:
      [Some err] when it refuses them. *)
  http_NewRequest_refuses : string -> string -> option error;
  (** [http.DefaultClient.Do]: the remote end.  Its answer may depend on
      the requests it has received before. *)
  http_Do : list http.Request -> http.Request -> result http.Response;
}.

(** [http.NewRequest(method, url, body)]: a request with exactly the
    given method, URL and body and an empty header. *)
Definition http_NewRequest `{Runtime} (method url : string)
    (body : option string) : result http.Request :=
  match http_NewRequest_refuses method url with
  | Some err => Err err
  | None => Ok (http.mkRequest method url ∅ body)
  end.

(** ** internal/usgdns/usgdns.go *)

Module usgdns.
Section client.
Context `{RT : Runtime}.

(** The network as the client sees it: the requests handed to
    [http.DefaultClient.Do] so far, oldest first. *)
Definition Net : Type := list http.Request.

Record Client : Type := mkClient {
  url : string;
  token : string;
}.

Definition NewClient (url token : string) : result Client :=
  Ok {| url := strings.TrimSuffix url "/"; token := token |}.

(** [(c *Client) do(method, uri string, body any)].  [body] is [None]
    for a nil body and [Some r] for a record. *)
Definition do (c : Client) (method uri : string) (body : option DnsRecord)
    (net : Net) : Net * result http.Response :=
  match url_Parse (url c +:+ uri) with
  | Err err => (net, Err (wrap "unable to parse the URL" err))
  | Ok parsedURL =>
    let bodyReader : result (option string) :=
      match body with
      | Some b =>
        match json_Marshal b with
        | Err err => Err (wrap "unable to marshal the body" err)
        | Ok bodyBytes => Ok (Some bodyBytes)
        end
      | None => Ok None
      end in
    match bodyReader with
    | Err err => (net, Err err)
    | Ok bodyReader =>
      match http_NewRequest method (url_String parsedURL) bodyReader with
      | Err err => (net, Err (wrap "unable to build the request" err))
      | Ok req =>
        let req :=
          http.mkRequest (http.Method req) (http.URL req)
            (http.Header.Set_ "Authorization" (token c) (http.Headers req))
            (http.ReqBody req) in
        (net ++ [req], http_Do net req)
      end
    end
  end.

(** [unmarshal(res, ret)]: read the whole body, then decode it into the
    type of [ret]; [decode] is [json.Unmarshal] at that type. *)
Definition unmarshal {A : Type} (decode : string -> result A)
    (res : http.Response) : result A :=
  match http.Body res with
  | Err err => Err (wrap "unable to read the body" err)
  | Ok bodyBytes =>
    match decode bodyBytes with
    | Err err => Err (wrap "unable to unmarshal the body" err)
    | Ok ret => Ok ret
    end
  end.

Definition getError (res : http.Response) : result string :=
  match unmarshal json_Unmarshal_Message res with
  | Err err => Err err
  | Ok Message => Ok Message
  end.

(** [fmt.Errorf("unexpected status code: %d", res.StatusCode)] *)
Definition unexpected_status (res : http.Response) : error :=
  "unexpected status code: " +:+ pretty (http.StatusCode res).

Definition GetRecords (c : Client) (net : Net)
    : Net * result (list DnsRecord) :=
  let '(net, r) := do c http.MethodGet "/records" None net in
  let r :=
    match r with
    | Ok res =>
      if decide (http.StatusCode res ≠ http.StatusOK)
      then Err (unexpected_status res)
      else Ok res
    | Err err => Err err
    end in
  match r with
  | Err err => (net, Err (wrap "error while executing the request" err))
  | Ok res =>
    match unmarshal json_Unmarshal_Records res with
    | Err err => (net, Err (wrap "unable to get the result" err))
    | Ok records => (net, Ok records)
    end
  end.

Definition CreateRecord (c : Client) (name target : string) (net : Net)
    : Net * result DnsRecord :=
  let '(net, r) :=
    do c http.MethodPost "/records"
      (Some {| db.ID := ""; db.Name := name; db.Target := target |}) net in
  let r :=
    match r with
    | Ok res =>
      if decide (http.StatusCode res ≠ http.StatusCreated)
      then
        let err := unexpected_status res in
        match getError res with
        | Ok errMsg =>
          if decide (errMsg ≠ "") then Err (wrap err errMsg) else Err err
        | Err _ => Err err
        end
      else Ok res
    | Err err => Err err
    end in
  match r with
  | Err err => (net, Err (wrap "error while executing the request" err))
  | Ok res =>
    match unmarshal json_Unmarshal_Record res with
    | Err err => (net, Err (wrap "unable to get the result" err))
    | Ok record => (net, Ok record)
    end
  end.

Definition GetRecord (c : Client) (id : string) (net : Net)
    : Net * result DnsRecord :=
  let '(net, r) := do c http.MethodGet ("/records/" +:+ id) None net in
  let r :=
    match r with
    | Ok res =>
      if decide (http.StatusCode res ≠ http.StatusOK)
      then
        let err := unexpected_status res in
        match getError res with
        | Ok errMsg =>
          if decide (errMsg ≠ "") then Err (wrap err errMsg) else Err err
        | Err _ => Err err
        end
      else Ok res
    | Err err => Err err
    end in
  match r with
  | Err err => (net, Err (wrap "error while executing the request" err))
  | Ok res =>
    match unmarshal json_Unmarshal_Record res with
    | Err err => (net, Err (wrap "unable to get the result" err))
    | Ok record => (net, Ok record)
    end
  end.

Definition UpdateRecord (c : Client) (id name target : string) (net : Net)
    : Net * result DnsRecord :=
  let '(net, r) :=
    do c http.MethodPut ("/records/" +:+ id)
      (Some {| db.ID := ""; db.Name := name; db.Target := target |}) net in
  let r :=
    match r with
    | Ok res =>
      if decide (http.StatusCode res ≠ http.StatusOK)
      then
        let err := unexpected_status res in
        match getError res with
        | Ok errMsg =>
          if decide (errMsg ≠ "") then Err (wrap err errMsg) else Err err
        | Err _ => Err err
        end
      else Ok res
    | Err err => Err err
    end in
  match r with
  | Err err => (net, Err (wrap "error while executing the request" err))
  | Ok res =>
    match unmarshal json_Unmarshal_Record res with
    | Err err => (net, Err (wrap "unable to get the result" err))
    | Ok record => (net, Ok record)
    end
  end.

(** [DeleteRecord] returns only an error: [None] is Go's [nil]. *)
Definition DeleteRecord (c : Client) (id : string) (net : Net)
    : Net * option error :=
  let '(net, r) := do c http.MethodDelete ("/records/" +:+ id) None net in
  let r :=
    match r with
    | Ok res =>
      if decide (http.StatusCode res ≠ http.StatusNoContent)
      then Err (unexpected_status res)
      else Ok res
    | Err err => Err err
    end in
  match r with
  | Err err => (net, Some (wrap "error while executing the request" err))
  | Ok _ => (net, None)
  end.

End client.
End usgdns.

(** ** The plugin framework, as far as the provider uses it *)

(** [types.String]: a string attribute is null, unknown or known. *)
Module types.

Inductive String : Type :=
| StringNull
| StringUnknown
| StringValue (s : string).

Global Instance String_eq_dec : EqDecision String.
Proof. solve_decision. Defined.

Definition IsNull (v : String) : bool :=
  match v with StringNull => true | _ => false end.

Definition IsUnknown (v : String) : bool :=
  match v with StringUnknown => true | _ => false end.

(** [ValueString] is the empty string for a null or unknown value. *)
Definition ValueString (v : String) : string :=
  match v with StringValue s => s | _ => "" end.

End types.

(** Package [diag]: the diagnostics a response carries. *)
Module diag.

Inductive Severity : Type := SeverityError | SeverityWarning.

Global Instance Severity_eq_dec : EqDecision Severity.
Proof. solve_decision. Defined.

(** A diagnostic; [Path] is the root attribute it is attached to, if
    any ([path.Root(name)]). *)
Record Diagnostic : Type := mkDiagnostic {
  Sev : Severity;
  Path : option string;
  Summary : string;
  Detail : string;
}.

Global Instance Diagnostic_eq_dec : EqDecision Diagnostic.
Proof. solve_decision. Defined.

Definition Diagnostics : Type := list Diagnostic.

Definition NewErrorDiagnostic (summary detail : string) : Diagnostic :=
  mkDiagnostic SeverityError None summary detail.

Definition NewAttributeErrorDiagnostic (path summary detail : string)
    : Diagnostic :=
  mkDiagnostic SeverityError (Some path) summary detail.

(** [diags.HasError()] *)
Definition HasError (diags : Diagnostics) : bool :=
  existsb (fun d => bool_decide (Sev d = SeverityError)) diags.

(** [diags.Append(in...)]: a diagnostic already contained is skipped. *)
Definition Append (new : Diagnostics) (diags : Diagnostics) : Diagnostics :=
  fold_left
    (fun diags d => if decide (d ∈ diags) then diags else diags ++ [d])
    new diags.

Definition AddError (summary detail : string) (diags : Diagnostics)
    : Diagnostics :=
  Append [NewErrorDiagnostic summary detail] diags.

Definition AddAttributeError (path summary detail : string)
    (diags : Diagnostics) : Diagnostics :=
  Append [NewAttributeErrorDiagnostic path summary detail] diags.

End diag.

(** Package [tfsdk]: the configuration, plan and state containers.  A
    container of model type [M] either is null or holds a value that
    decodes to a model. *)
Module tfsdk.

Definition Data (M : Type) : Type := option M.

(** The diagnostic of [Get] on a null container: a struct target
    cannot take a null value. *)
Definition conversion_error : diag.Diagnostic :=
  diag.NewErrorDiagnostic "Value Conversion Error"
    "Received null value, however the target type cannot handle null values.".

(** [data.Get(ctx, &target)]: the diagnostics and the target
    afterwards. *)
Definition Get {M : Type} (data : Data M) (target : M)
    : diag.Diagnostics * M :=
  match data with
  | Some m => ([], m)
  | None => ([conversion_error], target)
  end.

(** [data.Set(ctx, val)] for a model whose fields mirror the schema:
    the diagnostics and the container afterwards. *)
Definition Set_ {M : Type} (val : M) (data : Data M)
    : diag.Diagnostics * Data M :=
  ([], Some val).

End tfsdk.

(** Package [os]: the environment is a map from names to values, and
    [os.Getenv] is the empty string for a name that is not set. *)
Module os.

Abbreviation Environ := (gmap string string).

Definition Getenv (env : Environ) (key : string) : string :=
  default "" (env !! key).

End os.


(** ** package provider *)

Module provider.

(** *** provider.go *)

Definition envCfgUrl : string := "USG_DNS_URL".
Definition envCfgToken : string := "USG_DNS_TOKEN".

Record usgDnsProviderModel : Type := mkProviderModel {
  URL : types.String;
  Token : types.String;
}.

(** [provider.ConfigureRequest] and [provider.ConfigureResponse]. *)
Record ConfigureRequest : Type := mkConfigureRequest {
  Config : tfsdk.Data usgDnsProviderModel;
}.

Record ConfigureResponse : Type := mkConfigureResponse {
  Diagnostics : diag.Diagnostics;
  DataSourceData : option usgdns.Client;
  ResourceData : option usgdns.Client;
}.

Definition setDiagnostics (f : diag.Diagnostics -> diag.Diagnostics)
    (resp : ConfigureResponse) : ConfigureResponse :=
  mkConfigureResponse (f (Diagnostics resp)) (DataSourceData resp)
    (ResourceData resp).

(** The detail texts of the diagnostics of [Configure]. *)
Definition unknownUrlDetail : string :=
  "The provider cannot create the usg-dns API client as there is an unknown configuration value for the URL. " +:+
  "Either target apply the source of the value first, set the value statically in the configuration, or use the " +:+ envCfgUrl +:+ " environment variable.".

Definition unknownTokenDetail : string :=
  "The provider cannot create the usg-dns API client as there is an unknown configuration value for the token. " +:+
  "Either target apply the source of the value first, set the value statically in the configuration, or use the " +:+ envCfgToken +:+ " environment variable.".

Definition missingUrlDetail : string :=
  "The provider cannot create the usg-dns API client as there is a missing or empty value for the URL. " +:+
  "Set the host value in the configuration or use the " +:+ envCfgUrl +:+ " environment variable. " +:+
  "If either is already set, ensure the value is not empty.".

Definition missingTokenDetail : string :=
  "The provider cannot create the usg-dns API client as there is a missing or empty value for the token. " +:+
  "Set the username value in the configuration or use the " +:+ envCfgToken +:+ " environment variable. " +:+
  "If either is already set, ensure the value is not empty.".

Definition clientErrorSummary : string := "Unable to Create usg-dns API Client".

Definition clientErrorDetail (err : error) : string :=
  "An unexpected error occurred when creating the usg-dns API client. " +:+
  "If the error is not clear, please contact the provider developers." +:+
  newline +:+ newline +:+
  "usg-dns Client Error: " +:+ err.

(** The value of the local variable [url] (or [token]) of [Configure]
    once the environment default has been overridden by the
    configuration value: [v := os.Getenv(name); if !cfg.IsNull() { v =
    cfg.ValueString() }]. *)
Definition resolve (env : os.Environ) (name : string) (cfg : types.String)
    : string :=
  let v := os.Getenv env name in
  if negb (types.IsNull cfg) then types.ValueString cfg else v.

(** [(p *usgDnsProvider) Configure(ctx, req, resp)]: the response
    afterwards, in the environment [env]. *)
Definition Configure (env : os.Environ) (req : ConfigureRequest)
    (resp : ConfigureResponse) : ConfigureResponse :=
  let config := mkProviderModel types.StringNull types.StringNull in
  let '(diags, config) := tfsdk.Get (Config req) config in
  let resp := setDiagnostics (diag.Append diags) resp in
  if diag.HasError (Diagnostics resp) then resp else
  let resp :=
    if types.IsUnknown (URL config)
    then setDiagnostics
           (diag.AddAttributeError "url" "Unknown usg-dns API URL"
              unknownUrlDetail) resp
    else resp in
  let resp :=
    if types.IsUnknown (Token config)
    then setDiagnostics
           (diag.AddAttributeError "token" "Unknown usg-dns API token"
              unknownTokenDetail) resp
    else resp in
  if diag.HasError (Diagnostics resp) then resp else
  let url := resolve env envCfgUrl (URL config) in
  let token := resolve env envCfgToken (Token config) in
  let resp :=
    if decide (url = "")
    then setDiagnostics
           (diag.AddAttributeError "url" "Missing usg-dns API URL"
              missingUrlDetail) resp
    else resp in
  let resp :=
    if decide (token = "")
    then setDiagnostics
           (diag.AddAttributeError "token" "Missing usg-dns API token"
              missingTokenDetail) resp
    else resp in
  if diag.HasError (Diagnostics resp) then resp else
  match usgdns.NewClient url token with
  | Err err =>
    setDiagnostics
      (diag.AddError clientErrorSummary (clientErrorDetail err)) resp
  | Ok client =>
    mkConfigureResponse (Diagnostics resp) (Some client) (Some client)
  end.

(** The diagnostics of [Configure], by name. *)
Definition unknownUrlDiag : diag.Diagnostic :=
  diag.NewAttributeErrorDiagnostic "url" "Unknown usg-dns API URL"
    unknownUrlDetail.

Definition unknownTokenDiag : diag.Diagnostic :=
  diag.NewAttributeErrorDiagnostic "token" "Unknown usg-dns API token"
    unknownTokenDetail.

Definition missingUrlDiag : diag.Diagnostic :=
  diag.NewAttributeErrorDiagnostic "url" "Missing usg-dns API URL"
    missingUrlDetail.

Definition missingTokenDiag : diag.Diagnostic :=
  diag.NewAttributeErrorDiagnostic "token" "Missing usg-dns API token"
    missingTokenDetail.

(** The response the framework hands to [Configure]: no diagnostics, no
    provider data. *)
Definition emptyConfigureResponse : ConfigureResponse :=
  mkConfigureResponse [] None None.

(** A non-nil value of Go's [any] as the framework hands it to the
    [Configure] of a resource or data source: a [*usgdns.Client], or a
    value of another type, of which only the name that [%T] prints
    matters. *)
Inductive any : Type :=
| AnyClient (c : usgdns.Client)
| AnyOther (goType : string).

(** *** types.go *)

Record recordResourceModel : Type := mkRecordModel {
  ID : types.String;
  Name : types.String;
  Target : types.String;
}.

Global Instance recordResourceModel_eq_dec : EqDecision recordResourceModel.
Proof. solve_decision. Defined.

(** *** record_resource.go *)

Module recordResource.
Section resource.
Context `{RT : Runtime}.

(** The resource, with the client the provider has configured it with. *)
Record recordResource : Type := mkResource {
  client : usgdns.Client;
}.

(** [resource.CreateRequest], [resource.CreateResponse],
    [resource.ReadRequest] and [resource.ReadResponse]. *)
Record CreateRequest : Type := mkCreateRequest {
  Plan : tfsdk.Data recordResourceModel;
}.

Record CreateResponse : Type := mkCreateResponse {
  CreateState : tfsdk.Data recordResourceModel;
  CreateDiagnostics : diag.Diagnostics;
}.

Record ReadRequest : Type := mkReadRequest {
  State : tfsdk.Data recordResourceModel;
}.

Record ReadResponse : Type := mkReadResponse {
  ReadState : tfsdk.Data recordResourceModel;
  ReadDiagnostics : diag.Diagnostics;
}.

(** [(r *recordResource) Create(ctx, req, resp)]: the network and the
    response afterwards. *)
Definition Create (r : recordResource) (req : CreateRequest)
    (resp : CreateResponse) (net : usgdns.Net)
    : usgdns.Net * CreateResponse :=
  let plan := mkRecordModel types.StringNull types.StringNull types.StringNull in
  let '(diags, plan) := tfsdk.Get (Plan req) plan in
  let resp :=
    mkCreateResponse (CreateState resp)
      (diag.Append diags (CreateDiagnostics resp)) in
  if diag.HasError (CreateDiagnostics resp) then (net, resp) else
  let '(net, r) :=
    usgdns.CreateRecord (client r) (types.ValueString (Name plan))
      (types.ValueString (Target plan)) net in
  match r with
  | Err err =>
    (net,
     mkCreateResponse (CreateState resp)
       (diag.AddError "Unable to create the usg-dns record" err
          (CreateDiagnostics resp)))
  | Ok record =>
    let plan :=
      mkRecordModel (types.StringValue (db.ID record)) (Name plan)
        (Target plan) in
    let plan :=
      mkRecordModel (ID plan) (types.StringValue (db.Name record))
        (Target plan) in
    let plan :=
      mkRecordModel (ID plan) (Name plan)
        (types.StringValue (db.Target record)) in
    let '(diags, state) := tfsdk.Set_ plan (CreateState resp) in
    (net,
     mkCreateResponse state (diag.Append diags (CreateDiagnostics resp)))
  end.

(** [(r *recordResource) Read(ctx, req, resp)]. *)
Definition Read (r : recordResource) (req : ReadRequest)
    (resp : ReadResponse) (net : usgdns.Net) : usgdns.Net * ReadResponse :=
  let state := mkRecordModel types.StringNull types.StringNull types.StringNull in
  let '(diags, state) := tfsdk.Get (State req) state in
  let resp :=
    mkReadResponse (ReadState resp)
      (diag.Append diags (ReadDiagnostics resp)) in
  if diag.HasError (ReadDiagnostics resp) then (net, resp) else
  let '(net, r) :=
    usgdns.GetRecord (client r) (types.ValueString (ID state)) net in
  match r with
  | Err err =>
    (net,
     mkReadResponse (ReadState resp)
       (diag.AddError "Error Reading usg-dns record"
          ("Could not read usg-dns record ID " +:+
           types.ValueString (ID state) +:+ ": " +:+ err)
          (ReadDiagnostics resp)))
  | Ok record =>
    let state :=
      mkRecordModel (ID state) (types.StringValue (db.Name record))
        (Target state) in
    let state :=
      mkRecordModel (ID state) (Name state)
        (types.StringValue (db.Target record)) in
    let '(diags, st) := tfsdk.Set_ state (ReadState resp) in
    (net, mkReadResponse st (diag.Append diags (ReadDiagnostics resp)))
  end.

(** [resource.ConfigureRequest] and [resource.ConfigureResponse];
    [ProviderData] is [None] for nil. *)
Record ConfigureRequest : Type := mkConfigureRequest {
  ProviderData : option any;
}.

Record ConfigureResponse : Type := mkConfigureResponse {
  ConfigureDiagnostics : diag.Diagnostics;
}.

(** [(r *recordResource) Configure(ctx, req, resp)]: the resource and
    the response afterwards. *)
Definition Configure (r : recordResource) (req : ConfigureRequest)
    (resp : ConfigureResponse) : recordResource * ConfigureResponse :=
  match ProviderData req with
  | None => (r, resp)
  | Some data =>
    match data with
    | AnyClient client => (mkResource client, resp)
    | AnyOther goType =>
      (r,
       mkConfigureResponse
         (diag.AddError "Unexpected Data Source Configure Type"
            ("Expected *usgdns.Client, got: " +:+ goType +:+
             ". Please report this issue to the provider developers.")
            (ConfigureDiagnostics resp)))
    end
  end.





(** [resource.UpdateRequest] and [resource.UpdateResponse]. *)
Record UpdateRequest : Type := mkUpdateRequest {
  PriorState : tfsdk.Data recordResourceModel;
  PlannedState : tfsdk.Data recordResourceModel;
}.

Record UpdateResponse : Type := mkUpdateResponse {
  UpdateState : tfsdk.Data recordResourceModel;
  UpdateDiagnostics : diag.Diagnostics;
}.

(** An entry of the log: the message, and the model logged under the
    key [plan]. *)
Definition LogEntry : Type := (string * recordResourceModel)%type.

(** [(r *recordResource) Update(ctx, req, resp)]: the network, the
    entries written with [tflog.Info] and the response afterwards. *)
Definition Update (r : recordResource) (req : UpdateRequest)
    (resp : UpdateResponse) (net : usgdns.Net)
    : usgdns.Net * list LogEntry * UpdateResponse :=
  let state := mkRecordModel types.StringNull types.StringNull types.StringNull in
  let '(diags, state) := tfsdk.Get (PriorState req) state in
  let resp :=
    mkUpdateResponse (UpdateState resp)
      (diag.Append diags (UpdateDiagnostics resp)) in
  if diag.HasError (UpdateDiagnostics resp) then (net, [], resp) else
  let plan := mkRecordModel types.StringNull types.StringNull types.StringNull in
  let '(diags, plan) := tfsdk.Get (PlannedState req) plan in
  let resp :=
    mkUpdateResponse (UpdateState resp)
      (diag.Append diags (UpdateDiagnostics resp)) in
  if diag.HasError (UpdateDiagnostics resp) then (net, [], resp) else
  let log : list LogEntry := [("plan:", state)] in
  let '(net, r) :=
    usgdns.UpdateRecord (client r) (types.ValueString (ID state))
      (types.ValueString (Name plan)) (types.ValueString (Target plan))
      net in
  match r with
  | Err err =>
    (net, log,
     mkUpdateResponse (UpdateState resp)
       (diag.AddError "Error Updating usg-dns record"
          ("Could not update record, unexpected error: " +:+ err)
          (UpdateDiagnostics resp)))
  | Ok record =>
    let plan :=
      mkRecordModel (types.StringValue (db.ID record)) (Name plan)
        (Target plan) in
    let plan :=
      mkRecordModel (ID plan) (types.StringValue (db.Name record))
        (Target plan) in
    let plan :=
      mkRecordModel (ID plan) (Name plan)
        (types.StringValue (db.Target record)) in
    let '(diags, st) := tfsdk.Set_ plan (UpdateState resp) in
    (net, log,
     mkUpdateResponse st (diag.Append diags (UpdateDiagnostics resp)))
  end.

(** [resource.DeleteRequest] and [resource.DeleteResponse]. *)
Record DeleteRequest : Type := mkDeleteRequest {
  DeletedState : tfsdk.Data recordResourceModel;
}.

Record DeleteResponse : Type := mkDeleteResponse {
  DeleteState : tfsdk.Data recordResourceModel;
  DeleteDiagnostics : diag.Diagnostics;
}.

(** [(r *recordResource) Delete(ctx, req, resp)]. *)
Definition Delete (r : recordResource) (req : DeleteRequest)
    (resp : DeleteResponse) (net : usgdns.Net)
    : usgdns.Net * DeleteResponse :=
  let state := mkRecordModel types.StringNull types.StringNull types.StringNull in
  let '(diags, state) := tfsdk.Get (DeletedState req) state in
  let resp :=
    mkDeleteResponse (DeleteState resp)
      (diag.Append diags (DeleteDiagnostics resp)) in
  if diag.HasError (DeleteDiagnostics resp) then (net, resp) else
  let '(net, err) :=
    usgdns.DeleteRecord (client r) (types.ValueString (ID state)) net in
  match err with
  | Some err =>
    (net,
     mkDeleteResponse (DeleteState resp)
       (diag.AddError "Error Deleting usg-dns record"
          ("Could not delete record, unexpected error: " +:+ err)
          (DeleteDiagnostics resp)))
  | None => (net, resp)
  end.

End resource.
End recordResource.

(** *** records_data_source.go *)

Module recordsDataSource.
Section datasource.
Context `{RT : Runtime}.

Record recordsDataSourceModel : Type := mkRecordsModel {
  Records : list recordResourceModel;
}.

Record recordsDataSource : Type := mkDataSource {
  client : usgdns.Client;
}.

(** [datasource.ReadResponse]; the request is not inspected by [Read]. *)
Record ReadResponse : Type := mkReadResponse {
  State : tfsdk.Data recordsDataSourceModel;
  Diagnostics : diag.Diagnostics;
}.

(** [(d *recordsDataSource) Read(ctx, req, resp)].  The loop over
    [records] appends one element to [state.Records] per record. *)
Definition Read (d : recordsDataSource) (resp : ReadResponse)
    (net : usgdns.Net) : usgdns.Net * ReadResponse :=
  let state := mkRecordsModel [] in
  let '(net, r) := usgdns.GetRecords (client d) net in
  match r with
  | Err err =>
    (net,
     mkReadResponse (State resp)
       (diag.AddError "Unable to fetch the usg-dns records" err
          (Diagnostics resp)))
  | Ok records =>
    let state :=
      fold_left
        (fun state record =>
           let recordState :=
             mkRecordModel (types.StringValue (db.ID record))
               (types.StringValue (db.Name record))
               (types.StringValue (db.Target record)) in
           mkRecordsModel (Records state ++ [recordState]))
        records state in
    let '(diags, st) := tfsdk.Set_ state (State resp) in
    (net, mkReadResponse st (diag.Append diags (Diagnostics resp)))
  end.

(** [datasource.ConfigureRequest] and [datasource.ConfigureResponse]. *)
Record ConfigureRequest : Type := mkConfigureRequest {
  ProviderData : option any;
}.

Record ConfigureResponse : Type := mkConfigureResponse {
  ConfigureDiagnostics : diag.Diagnostics;
}.

(** [(d *recordsDataSource) Configure(ctx, req, resp)]. *)
Definition Configure (d : recordsDataSource) (req : ConfigureRequest)
    (resp : ConfigureResponse) : recordsDataSource * ConfigureResponse :=
  match ProviderData req with
  | None => (d, resp)
  | Some data =>
    match data with
    | AnyClient client => (mkDataSource client, resp)
    | AnyOther goType =>
      (d,
       mkConfigureResponse
         (diag.AddError "Unexpected Data Source Configure Type"
            ("Expected *usgdns.Client, got: " +:+ goType +:+
             ". Please report this issue to the provider developers.")
            (ConfigureDiagnostics resp)))
    end
  end.

End datasource.
End recordsDataSource.

End provider.

(** ** Validation of the provider configuration, in the words of the
    specification *)

Module validation.

(** The response of [Configure] to a configuration that decodes to
    [cfg], starting from the empty response of the framework. *)
Definition configure (env : os.Environ) (cfg : provider.usgDnsProviderModel)
    : provider.ConfigureResponse :=
  provider.Configure env (provider.mkConfigureRequest (Some cfg))
    provider.emptyConfigureResponse.

(** An attribute is unknown, or it is missing: not unknown, and the
    value resolved for it is empty.  It fails validation in either
    case. *)
Definition unknown (v : types.String) : Prop := types.IsUnknown v = true.

Definition missing (env : os.Environ) (name : string) (v : types.String)
    : Prop :=
  types.IsUnknown v = false /\ provider.resolve env name v = "".

Definition fails (env : os.Environ) (name : string) (v : types.String)
    : Prop :=
  unknown v \/ missing env name v.

(** The response reports the attribute [attr]: it holds an error
    diagnostic attached to [attr]. *)
Definition reported (attr : string) (resp : provider.ConfigureResponse)
    : Prop :=
  exists d : diag.Diagnostic,
    d ∈ provider.Diagnostics resp /\
    diag.Sev d = diag.SeverityError /\
    diag.Path d = Some attr.

(** No client has been constructed. *)
Definition no_client (resp : provider.ConfigureResponse) : Prop :=
  provider.DataSourceData resp = None /\ provider.ResourceData resp = None.

End validation.

(** ** The five operations of the client, as one family

    What each method of the client passes to [do], the status it
    compares the answer with, and the method itself. *)

Module operation.

Inductive t : Type :=
| List
| Get (id : string)
| Create (name target : string)
| Update (id name target : string)
| Delete (id : string).

(** The HTTP method and the endpoint path of the call of [do]. *)
Definition method (op : t) : string :=
  match op with
  | List | Get _ => http.MethodGet
  | Create _ _ => http.MethodPost
  | Update _ _ _ => http.MethodPut
  | Delete _ => http.MethodDelete
  end.

Definition path (op : t) : string :=
  match op with
  | List | Create _ _ => "/records"
  | Get id | Update id _ _ | Delete id => "/records/" +:+ id
  end.

Definition body (op : t) : option DnsRecord :=
  match op with
  | Create name target | Update _ name target =>
    Some {| db.ID := ""; db.Name := name; db.Target := target |}
  | List | Get _ | Delete _ => None
  end.

(** The status the method takes for success. *)
Definition success (op : t) : Z :=
  match op with
  | List | Get _ | Update _ _ _ => http.StatusOK
  | Create _ _ => http.StatusCreated
  | Delete _ => http.StatusNoContent
  end.

(** The error of a result, [None] for Go's [nil]. *)
Definition error_of {A : Type} (r : result A) : option error :=
  match r with Ok _ => None | Err err => Some err end.

(** The method of the client that [op] names: the network afterwards
    and the error it returns. *)
Definition run `{RT : Runtime} (op : t) (c : usgdns.Client)
    (net : usgdns.Net) : usgdns.Net * option error :=
  match op with
  | List => let '(net, r) := usgdns.GetRecords c net in (net, error_of r)
  | Get id => let '(net, r) := usgdns.GetRecord c id net in (net, error_of r)
  | Create name target =>
    let '(net, r) := usgdns.CreateRecord c name target net in
    (net, error_of r)
  | Update id name target =>
    let '(net, r) := usgdns.UpdateRecord c id name target net in
    (net, error_of r)
  | Delete id => usgdns.DeleteRecord c id net
  end.

(** The error text the three record-returning methods that inspect the
    error body are specified to return for an answer [res] whose status
    is not the expected one: it holds the status text; it is the status
    text followed by the message when the body decodes to a non-empty
    message; and it is the status text alone when the body cannot be
    read, cannot be decoded, or decodes to an empty message. *)
Definition enriched_error `{RT : Runtime} (res : http.Response)
    (err : error) : Prop :=
  let status := pretty (http.StatusCode res) in
  contains err ("unexpected status code: " +:+ status) /\
  (forall body message : string,
     http.Body res = Ok body ->
     json_Unmarshal_Message body = Ok message ->
     message ≠ "" ->
     err = "error while executing the request: unexpected status code: "
           +:+ status +:+ ": " +:+ message) /\
  ((exists e, http.Body res = Err e) \/
   (exists body e,
      http.Body res = Ok body /\ json_Unmarshal_Message body = Err e) \/
   (exists body,
      http.Body res = Ok body /\ json_Unmarshal_Message body = Ok "") ->
   err = "error while executing the request: unexpected status code: "
         +:+ status).

End operation.

(** ** A runtime to run the model on

    An instance of [Runtime] over a fragment of the real packages, used
    to evaluate the model on the scenarios of the specification: URLs are
    kept as text and refused when they hold a control byte, JSON is
    restricted to objects of string fields (and arrays of them) without
    escape sequences, and the remote end is a function given by the
    scenario. *)

Module sample.

Definition is_control (c : Ascii.ascii) : bool :=
  let n := Stdlib.Strings.Ascii.nat_of_ascii c in
  ((n <? 32) || (n =? 127))%nat.

Fixpoint has_control (s : string) : bool :=
  match s with
  | EmptyString => false
  | String c s => is_control c || has_control s
  end.

Definition parse_url (s : string) : result string :=
  if has_control s
  then Err "net/url: invalid control character in URL"
  else Ok s.

(** *** JSON objects of string fields *)

Inductive token : Type :=
| LBrace | RBrace | LBracket | RBracket | Colon | Comma
| Str (s : string).

Definition is_space (ch : string) : bool :=
  bool_decide (ch = " ") || bool_decide (ch = newline).

(** [lex s lit]: the tokens of [s]; [lit] is the string literal being
    read, if any. *)
Fixpoint lex (s : string) (lit : option string) : option (list token) :=
  match s with
  | EmptyString => match lit with None => Some [] | Some _ => None end
  | String c s =>
    let ch := String c EmptyString in
    match lit with
    | Some acc =>
      if decide (ch = dquote) then cons (Str acc) <$> lex s None
      else if decide (ch = "\") then None
      else lex s (Some (acc +:+ ch))
    | None =>
      if decide (ch = dquote) then lex s (Some EmptyString)
      else if decide (ch = "{") then cons LBrace <$> lex s None
      else if decide (ch = "}") then cons RBrace <$> lex s None
      else if decide (ch = "[") then cons LBracket <$> lex s None
      else if decide (ch = "]") then cons RBracket <$> lex s None
      else if decide (ch = ":") then cons Colon <$> lex s None
      else if decide (ch = ",") then cons Comma <$> lex s None
      else if is_space ch then lex s None
      else None
    end
  end.

Definition object : Type := list (string * string).

(** The fields after the opening brace, and the tokens that follow the
    closing one. *)
Fixpoint fields (ts : list token) : option (object * list token) :=
  match ts with
  | Str k :: Colon :: Str v :: Comma :: ts =>
    '(kvs, rest) ← fields ts; Some ((k, v) :: kvs, rest)
  | Str k :: Colon :: Str v :: RBrace :: rest => Some ([(k, v)], rest)
  | _ => None
  end.

Definition parse_object (ts : list token) : option (object * list token) :=
  match ts with
  | LBrace :: RBrace :: rest => Some ([], rest)
  | LBrace :: ts => fields ts
  | _ => None
  end.

(** The objects of an array after its opening bracket. *)
Fixpoint objects (fuel : nat) (ts : list token) : option (list object) :=
  match fuel with
  | O => None
  | S fuel =>
    '(o, rest) ← parse_object ts;
    match rest with
    | [RBracket] => Some [o]
    | Comma :: rest => cons o <$> objects fuel rest
    | _ => None
    end
  end.

Definition parse_array (ts : list token) : option (list object) :=
  match ts with
  | [LBracket; RBracket] => Some []
  | LBracket :: ts => objects (length ts) ts
  | _ => None
  end.

(** The value of the field [key]: the last one wins, a missing field
    leaves the zero value. *)
Definition field (key : string) (o : object) : string :=
  fold_left (fun acc kv => if decide (kv.1 = key) then kv.2 else acc) o "".

Definition to_record (o : object) : DnsRecord :=
  db.mkRecord (field "id" o) (field "name" o) (field "target" o).

Definition syntax_error : error := "invalid character in JSON input".

Definition decode_object (s : string) : result object :=
  match lex s None ≫= parse_object with
  | Some (o, []) => Ok o
  | _ => Err syntax_error
  end.

Definition unmarshal_record (s : string) : result DnsRecord :=
  to_record <$> decode_object s.

Definition unmarshal_message (s : string) : result string :=
  field "message" <$> decode_object s.

Definition unmarshal_records (s : string) : result (list DnsRecord) :=
  match lex s None ≫= parse_array with
  | Some os => Ok (to_record <$> os)
  | None => Err syntax_error
  end.

Definition quote (s : string) : string := dquote +:+ s +:+ dquote.

Definition pair_text (k v : string) : string := quote k +:+ ":" +:+ quote v.

(** The encoding of a record as the request body: the name and the
    target, preceded by the id when there is one. *)
Definition marshal_record (r : DnsRecord) : result string :=
  Ok ("{" +:+
      (if decide (db.ID r = "") then "" else pair_text "id" (db.ID r) +:+ ",") +:+
      pair_text "name" (db.Name r) +:+ "," +:+
      pair_text "target" (db.Target r) +:+ "}").

(** [http.NewRequest] parses the URL text once more. *)
Definition newRequest_refuses (method url : string) : option error :=
  if has_control url
  then Some "net/url: invalid control character in URL"
  else None.

Definition runtime
    (server : list http.Request -> http.Request -> result http.Response)
    : Runtime :=
  {| url_URL := string;
     url_Parse := parse_url;
     url_String := fun u => u;
     json_Marshal := marshal_record;
     json_Unmarshal_Record := unmarshal_record;
     json_Unmarshal_Records := unmarshal_records;
     json_Unmarshal_Message := unmarshal_message;
     http_NewRequest_refuses := newRequest_refuses;
     http_Do := server |}.

End sample.

(** ** Scenarios

    Concrete inputs on which the model is evaluated: the client of the
    specification's example, canned remote ends, and provider
    configurations. *)

Module scenario.

Definition body_created : string :=
  "{" +:+ sample.pair_text "id" "42" +:+ "," +:+
  sample.pair_text "name" "www" +:+ "," +:+
  sample.pair_text "target" "1.2.3.4" +:+ "}".

Definition body_conflict : string :=
  "{" +:+ sample.pair_text "message" "name already exists" +:+ "}".

(** A remote end that answers every request with the same status and
    body. *)
Definition always (status : Z) (body : string)
    : list http.Request -> http.Request -> result http.Response :=
  fun _ _ => Ok (http.mkResponse status (Ok body)).

(** The client built from [{url: "https://dns.example.com/", token:
    "secret"}]. *)
Definition example_client : usgdns.Client :=
  match usgdns.NewClient "https://dns.example.com/" "secret" with
  | Ok c => c
  | Err _ => usgdns.mkClient "" ""
  end.

(** The request of [create("www", "1.2.3.4")] through that client. *)
Definition create_request : http.Request :=
  http.mkRequest "POST" "https://dns.example.com/records"
    {[ "Authorization" := ["secret"] ]}
    (Some ("{" +:+ sample.pair_text "name" "www" +:+ "," +:+
           sample.pair_text "target" "1.2.3.4" +:+ "}")).

(** The request of [delete("42")] through that client. *)
Definition delete_request : http.Request :=
  http.mkRequest "DELETE" "https://dns.example.com/records/42"
    {[ "Authorization" := ["secret"] ]} None.

(** Remote ends: one that creates the record, one that refuses it, one
    that deletes, and one that does not find the record and answers
    with a page that is not JSON. *)
Definition creating : Runtime := sample.runtime (always 201 body_created).
Definition refusing : Runtime := sample.runtime (always 400 body_conflict).
Definition deleting : Runtime := sample.runtime (always 204 "").
Definition missing : Runtime := sample.runtime (always 404 "not found").

(** A remote end that serves the record 42, and one that lists two
    records. *)
Definition serving : Runtime := sample.runtime (always 200 body_created).

Definition body_list : string :=
  "[" +:+ body_created +:+ "," +:+
  "{" +:+ sample.pair_text "id" "7" +:+ "," +:+
  sample.pair_text "name" "mail" +:+ "," +:+
  sample.pair_text "target" "5.6.7.8" +:+ "}" +:+ "]".

Definition listing : Runtime := sample.runtime (always 200 body_list).

(** The plan of a record [www], and the state of that record once it
    has been created with another target. *)
Definition plan_www : provider.recordResourceModel :=
  provider.mkRecordModel types.StringNull (types.StringValue "www")
    (types.StringValue "1.2.3.4").

Definition state_www : provider.recordResourceModel :=
  provider.mkRecordModel (types.StringValue "42") (types.StringValue "www")
    (types.StringValue "9.9.9.9").

Definition resource : provider.recordResource.recordResource :=
  provider.recordResource.mkResource example_client.

Definition datasource : provider.recordsDataSource.recordsDataSource :=
  provider.recordsDataSource.mkDataSource example_client.

(** Runtimes that fail: a remote end that cannot be reached, an encoder
    that refuses every record, and a request constructor that refuses
    every request. *)
Definition unreachable : Runtime :=
  sample.runtime (fun _ _ => Err "dial tcp: connection refused").

Definition unencodable : Runtime :=
  {| url_URL := string;
     url_Parse := sample.parse_url;
     url_String := fun u => u;
     json_Marshal := fun _ => Err "json: unsupported value";
     json_Unmarshal_Record := sample.unmarshal_record;
     json_Unmarshal_Records := sample.unmarshal_records;
     json_Unmarshal_Message := sample.unmarshal_message;
     http_NewRequest_refuses := sample.newRequest_refuses;
     http_Do := always 201 body_created |}.

Definition unbuildable : Runtime :=
  {| url_URL := string;
     url_Parse := sample.parse_url;
     url_String := fun u => u;
     json_Marshal := sample.marshal_record;
     json_Unmarshal_Record := sample.unmarshal_record;
     json_Unmarshal_Records := sample.unmarshal_records;
     json_Unmarshal_Message := sample.unmarshal_message;
     http_NewRequest_refuses := fun _ _ => Some "net/http: nil Context";
     http_Do := always 201 body_created |}.

(** A client whose base URL holds a line feed. *)
Definition broken_client : usgdns.Client :=
  usgdns.mkClient ("https://dns.example.com" +:+ newline) "secret".

(** The requests of [list()], [get("42")] and
    [update("42", "www", "1.2.3.4")] through the example client. *)
Definition list_request : http.Request :=
  http.mkRequest "GET" "https://dns.example.com/records"
    {[ "Authorization" := ["secret"] ]} None.

Definition get_request : http.Request :=
  http.mkRequest "GET" "https://dns.example.com/records/42"
    {[ "Authorization" := ["secret"] ]} None.

Definition update_request : http.Request :=
  http.mkRequest "PUT" "https://dns.example.com/records/42"
    {[ "Authorization" := ["secret"] ]}
    (Some ("{" +:+ sample.pair_text "name" "www" +:+ "," +:+
           sample.pair_text "target" "1.2.3.4" +:+ "}")).

(** A remote end that answers 200 with a page that is not JSON, and one
    that answers 500 with a message. *)
Definition garbled : Runtime := sample.runtime (always 200 "<html>").
Definition failing : Runtime := sample.runtime (always 500 body_conflict).

(** A remote end that answers a POST with 201 and anything else with
    200, always with the record 42. *)
Definition storing : Runtime :=
  sample.runtime
    (fun _ req =>
       Ok (http.mkResponse
             (if decide (http.Method req = "POST") then 201 else 200)
             (Ok body_created))).

Definition record_www : DnsRecord :=
  {| db.ID := "42"; db.Name := "www"; db.Target := "1.2.3.4" |}.

Definition config (url token : types.String) : provider.ConfigureRequest :=
  provider.mkConfigureRequest (Some (provider.mkProviderModel url token)).

(** A response that already carries the diagnostic of a failed client
    construction when [Configure] is called. *)
Definition stale_diag : diag.Diagnostic :=
  diag.NewErrorDiagnostic provider.clientErrorSummary "left by an earlier call".

Definition stale_response : provider.ConfigureResponse :=
  provider.mkConfigureResponse [stale_diag] None None.

(** Two environments that differ in variables [Configure] does not
    read, and in USG_DNS_URL being empty or not set. *)
Definition env_noise : os.Environ :=
  {[ "USG_DNS_URL" := ""; "USG_DNS_TOKEN" := "secret"; "HOME" := "/root" ]}.

Definition env_token_only : os.Environ :=
  {[ "USG_DNS_TOKEN" := "secret" ]}.

(** A response that holds a warning when [Configure] is called. *)
Definition warning : diag.Diagnostic :=
  diag.mkDiagnostic diag.SeverityWarning None "Deprecated" "a warning".

Definition warned_response : provider.ConfigureResponse :=
  provider.mkConfigureResponse [warning] None None.

Definition env_url_only : os.Environ :=
  {[ provider.envCfgUrl := "https://dns.example.com" ]}.

Definition env_both : os.Environ :=
  <[ provider.envCfgToken := "secret" ]> env_url_only.

End scenario.

(** * Properties *)

(** ** Texts *)

Lemma append_cons (c : Ascii.ascii) (s t : string) :
  String c s +:+ t = String c (s +:+ t).
Proof. reflexivity. Qed.

Lemma append_nil_l (s : string) : "" +:+ s = s.
Proof. reflexivity. Qed.

Lemma append_assoc (s t u : string) : (s +:+ t) +:+ u = s +:+ (t +:+ u).
Proof.
  induction s as [|c s IH]; [done|].
  by rewrite !append_cons, IH.
Qed.

Lemma append_nil_r (s : string) : s +:+ "" = s.
Proof.
  induction s as [|c s IH]; [done|].
  by rewrite append_cons, IH.
Qed.




Lemma contains_refl (s : string) : contains s s.
Proof. exists "", "". by rewrite append_nil_l, append_nil_r. Qed.

Lemma contains_prepend (p s t : string) : contains s t -> contains (p +:+ s) t.
Proof.
  intros (pre & post & ->). exists (p +:+ pre), post.
  by rewrite append_assoc.
Qed.

Lemma contains_append (s t u : string) : contains s t -> contains (s +:+ u) t.
Proof.
  intros (pre & post & ->). exists pre, (post +:+ u).
  by rewrite !append_assoc.
Qed.

Lemma contains_wrap (prefix err t : string) :
  contains err t -> contains (wrap prefix err) t.
Proof. intros H. unfold wrap. by do 2 apply contains_prepend. Qed.

(** ** strings.TrimSuffix *)





(** ** The request of an operation *)

Section requests.
Context `{RT : Runtime}.

(** [do] either fails before anything is sent, or sends exactly one
    request: the given method, the text of the parsed URL [c.url + uri],
    and the token as the only value of the Authorization header. *)
Lemma do_sends (c : usgdns.Client) (method uri : string)
    (body : option DnsRecord) (net : usgdns.Net) :
  (usgdns.do c method uri body net).1 = net /\
    (exists err, (usgdns.do c method uri body net).2 = Err err) \/
  exists (u : url_URL) (req : http.Request),
    url_Parse (usgdns.url c +:+ uri) = Ok u /\
    http.Method req = method /\
    http.URL req = url_String u /\
    http.Headers req = {[ "Authorization" := [usgdns.token c] ]} /\
    usgdns.do c method uri body net = (net ++ [req], http_Do net req).
Proof.
  unfold usgdns.do.
  destruct (url_Parse _) as [u|err] eqn:Hu; [|left; eauto].
  destruct body as [b|].
  - destruct (json_Marshal b) as [bytes|err]; [|left; eauto].
    unfold http_NewRequest.
    destruct (http_NewRequest_refuses _ _) as [err|]; [left; eauto|].
    right. eexists u, _. simpl. repeat split; try reflexivity.
  - unfold http_NewRequest.
    destruct (http_NewRequest_refuses _ _) as [err|]; [left; eauto|].
    right. eexists u, _. simpl. repeat split; try reflexivity.
Qed.

(** Every method of the client touches the network through one call of
    [do], with the method, path and body listed in [operation]. *)
Lemma run_net (op : operation.t) (c : usgdns.Client) (net : usgdns.Net) :
  (operation.run op c net).1 =
  (usgdns.do c (operation.method op) (operation.path op)
     (operation.body op) net).1.
Proof.
  destruct op; simpl;
    unfold usgdns.GetRecords, usgdns.GetRecord, usgdns.CreateRecord,
      usgdns.UpdateRecord, usgdns.DeleteRecord;
    destruct (usgdns.do _ _ _ _ _) as [net' [res|err]]; simpl;
    repeat (case_decide || case_match || simpl); by simplify_eq.
Qed.

End requests.

Section client_requests.
Context `{RT : Runtime}.

(** The request an operation has put on the network is the one [do]
    builds. *)
Lemma run_sent (op : operation.t) (c : usgdns.Client) (net : usgdns.Net)
    (req : http.Request) :
  (operation.run op c net).1 = net ++ [req] ->
  exists u : url_URL,
    url_Parse (usgdns.url c +:+ operation.path op) = Ok u /\
    http.Method req = operation.method op /\
    http.URL req = url_String u /\
    http.Headers req = {[ "Authorization" := [usgdns.token c] ]}.
Proof.
  rewrite run_net. intros Hnet.
  destruct (do_sends c (operation.method op) (operation.path op)
              (operation.body op) net)
    as [[Hsame _] | (u & req' & Hu & Hm & Hurl & Hh & Hdo)].
  - rewrite Hsame in Hnet. apply (f_equal length) in Hnet.
    rewrite length_app in Hnet. simpl in Hnet. lia.
  - rewrite Hdo in Hnet. simpl in Hnet.
    apply app_inv_head in Hnet. injection Hnet as <-. eauto.
Qed.



(** C8: the request that any of the five operations sends carries the
    configured token, unchanged, as the one value of its Authorization
    header. *)
Theorem C8_authorization_is_raw_token (op : operation.t)
    (c : usgdns.Client) (net : usgdns.Net) (req : http.Request) :
  (operation.run op c net).1 = net ++ [req] ->
  http.Headers req !! "Authorization" = Some [usgdns.token c] /\
  http.Header.Get "Authorization" (http.Headers req) = usgdns.token c.
Proof.
  intros Hsent. apply run_sent in Hsent as (u & _ & _ & _ & Hh).
  unfold http.Header.Get. rewrite Hh.
  by rewrite lookup_singleton_eq.
Qed.

End client_requests.

(** The example of the specification: the client of
    [https://dns.example.com/] with token [secret] creates [www]. *)
Example create_scenario :
  @usgdns.CreateRecord scenario.creating scenario.example_client
    "www" "1.2.3.4" [] =
  ([scenario.create_request],
   Ok {| db.ID := "42"; db.Name := "www"; db.Target := "1.2.3.4" |}).
Proof. vm_compute. reflexivity. Qed.


Lemma C8_authorization_is_raw_token_witness :
  (@operation.run scenario.creating (operation.Create "www" "1.2.3.4")
     scenario.example_client []).1 = [] ++ [scenario.create_request] /\
  http.Headers scenario.create_request !! "Authorization" = Some ["secret"] /\
  http.Header.Get "Authorization" (http.Headers scenario.create_request) =
    "secret".
Proof.
  split; [vm_compute; reflexivity|].
  apply (@C8_authorization_is_raw_token scenario.creating
           (operation.Create "www" "1.2.3.4") scenario.example_client []).
  vm_compute. reflexivity.
Defined.

Section delete_record.
Context `{RT : Runtime}.

(** [DeleteRecord] in terms of the one call of [do] it makes. *)
Lemma DeleteRecord_do (c : usgdns.Client) (id : string) (net : usgdns.Net) :
  usgdns.DeleteRecord c id net =
  let sent := usgdns.do c http.MethodDelete ("/records/" +:+ id) None net in
  (sent.1,
   match sent.2 with
   | Ok res =>
     if decide (http.StatusCode res = 204) then None
     else Some ("error while executing the request: unexpected status code: "
                +:+ pretty (http.StatusCode res))
   | Err err => Some (wrap "error while executing the request" err)
   end).
Proof.
  unfold usgdns.DeleteRecord.
  destruct (usgdns.do _ _ _ _ _) as [net' [res|err]]; simpl; [|done].
  unfold http.StatusNoContent.
  destruct (decide (http.StatusCode res ≠ 204)) as [Hne|Heq].
  - by rewrite decide_False.
  - apply dec_stable in Heq. by rewrite decide_True.
Qed.

(** C9: [DeleteRecord] sends [DELETE] to the parsed address of
    [/records/{id}] under the base URL; its result depends on the
    answer's status code only: no error for 204, and for any other
    status the error [unexpected status code: <status>] (wrapped); it
    returns no error exactly when a request went out and was answered
    with status 204. *)
Theorem C9_delete_record (c : usgdns.Client) (id : string)
    (net : usgdns.Net) :
  (forall req : http.Request,
     (usgdns.DeleteRecord c id net).1 = net ++ [req] ->
     http.Method req = "DELETE" /\
     (exists u : url_URL,
        url_Parse (usgdns.url c +:+ "/records/" +:+ id) = Ok u /\
        http.URL req = url_String u) /\
     match http_Do net req with
     | Ok res =>
       (usgdns.DeleteRecord c id net).2 =
         (if decide (http.StatusCode res = 204) then None
          else Some ("error while executing the request: unexpected status code: "
                     +:+ pretty (http.StatusCode res))) /\
       (http.StatusCode res ≠ 204 ->
        exists err,
          (usgdns.DeleteRecord c id net).2 = Some err /\
          contains err
            ("unexpected status code: " +:+ pretty (http.StatusCode res)))
     | Err err =>
       (usgdns.DeleteRecord c id net).2 =
         Some (wrap "error while executing the request" err)
     end) /\
  ((usgdns.DeleteRecord c id net).2 = None <->
   exists (req : http.Request) (res : http.Response),
     (usgdns.DeleteRecord c id net).1 = net ++ [req] /\
     http_Do net req = Ok res /\
     http.StatusCode res = 204).
Proof.
  rewrite DeleteRecord_do. cbv zeta.
  destruct (do_sends c http.MethodDelete ("/records/" +:+ id) None net)
    as [[Hsame [err Herr]] | (u & req' & Hu & Hm & Hurl & _ & Hdo)].
  - rewrite Hsame, Herr. simpl. split.
    + intros req Hnet. apply (f_equal length) in Hnet.
      rewrite length_app in Hnet. simpl in Hnet. lia.
    + split; [done|]. intros (req & res & Hnet & _).
      apply (f_equal length) in Hnet.
      rewrite length_app in Hnet. simpl in Hnet. lia.
  - rewrite Hdo. simpl. split.
    + intros req Hnet. apply app_inv_head in Hnet. injection Hnet as <-.
      split; [done|]. split; [eauto|].
      destruct (http_Do net req') as [res|err]; [|done].
      split; [done|]. intros Hne. rewrite decide_False by done.
      eexists. split; [done|].
      exists "error while executing the request: ", "".
      by rewrite append_nil_r.
    + split.
      * intros Hnone. exists req'.
        destruct (http_Do net req') as [res|err]; [|done].
        exists res. case_decide; done.
      * intros (req & res & Hnet & Hres & Hst).
        apply app_inv_head in Hnet. injection Hnet as <-.
        rewrite Hres. by rewrite decide_True.
Qed.

End delete_record.

Example delete_scenario :
  @usgdns.DeleteRecord scenario.deleting scenario.example_client "42" [] =
  ([scenario.delete_request], None).
Proof. vm_compute. reflexivity. Qed.

Example delete_missing_scenario :
  @usgdns.DeleteRecord scenario.missing scenario.example_client "42" [] =
  ([scenario.delete_request],
   Some "error while executing the request: unexpected status code: 404").
Proof. vm_compute. reflexivity. Qed.

Lemma C9_delete_record_witness :
  (@usgdns.DeleteRecord scenario.deleting scenario.example_client "42" []).1 =
    [] ++ [scenario.delete_request] /\
  http.Method scenario.delete_request = "DELETE" /\
  (@usgdns.DeleteRecord scenario.deleting scenario.example_client "42" []).2 =
    None.
Proof.
  split; [vm_compute; reflexivity|].
  destruct (@C9_delete_record scenario.deleting scenario.example_client
              "42" []) as [Hsent Hnil].
  split.
  - apply (Hsent scenario.delete_request). vm_compute. reflexivity.
  - apply Hnil.
    exists scenario.delete_request, (http.mkResponse 204 (Ok "")).
    repeat split; vm_compute; reflexivity.
Defined.

Section error_enrichment.
Context `{RT : Runtime}.

(** The block that the three methods share: for an answer with another
    status than the expected one, the error they build. *)
Lemma enrich_block (res : http.Response) :
  exists err : error,
    match usgdns.getError res with
    | Ok errMsg =>
      if decide (errMsg ≠ "")
      then Err (wrap (usgdns.unexpected_status res) errMsg)
      else Err (usgdns.unexpected_status res)
    | Err _ => Err (usgdns.unexpected_status res)
    end = (Err err : result http.Response) /\
    operation.enriched_error res
      (wrap "error while executing the request" err).
Proof.
  unfold usgdns.getError, usgdns.unmarshal, operation.enriched_error.
  cbv zeta.
  destruct (http.Body res) as [body|e] eqn:Hbody.
  - destruct (json_Unmarshal_Message body) as [message|e] eqn:Hmsg.
    + destruct (decide (message ≠ "")) as [Hne|Hemp].
      * eexists. split; [reflexivity|]. split; [|split].
        -- apply contains_wrap. unfold wrap. apply contains_append.
           apply contains_refl.
        -- intros body' message' [= <-] Hmsg' _.
           rewrite Hmsg in Hmsg'. by injection Hmsg' as <-.
        -- intros [[e [=]] | [(body' & e & [= <-] & Hmsg')
                             | (body' & [= <-] & Hmsg')]];
             rewrite Hmsg in Hmsg'; [done|].
           injection Hmsg' as ->. done.
      * apply dec_stable in Hemp. subst message.
        eexists. split; [reflexivity|]. split; [|split].
        -- apply contains_wrap, contains_refl.
        -- intros body' message' [= <-] Hmsg' Hne.
           rewrite Hmsg in Hmsg'. by injection Hmsg' as <-.
        -- done.
    + eexists. split; [reflexivity|]. split; [|split].
      * apply contains_wrap, contains_refl.
      * intros body' message' [= <-] Hmsg'. by rewrite Hmsg in Hmsg'.
      * done.
  - eexists. split; [reflexivity|]. split; [|split].
    + apply contains_wrap, contains_refl.
    + intros body' message' [=].
    + done.
Qed.

(** C1: when the answer to [CreateRecord], [GetRecord] or
    [UpdateRecord] has another status than the one the method expects
    (201, 200 and 200), the method returns an error whose text holds
    [unexpected status code: <status>]; the message of the body is
    appended to it when the body decodes to a non-empty message; and the
    status text stands alone, without any trace of the decoding failure,
    when the body cannot be read or decoded or the message is empty. *)
Theorem C1_error_enrichment (c : usgdns.Client) (net net' : usgdns.Net)
    (res : http.Response) :
  (forall name target : string,
     usgdns.do c "POST" "/records"
       (Some {| db.ID := ""; db.Name := name; db.Target := target |}) net =
       (net', Ok res) ->
     http.StatusCode res ≠ 201 ->
     exists err,
       usgdns.CreateRecord c name target net = (net', Err err) /\
       operation.enriched_error res err) /\
  (forall id : string,
     usgdns.do c "GET" ("/records/" +:+ id) None net = (net', Ok res) ->
     http.StatusCode res ≠ 200 ->
     exists err,
       usgdns.GetRecord c id net = (net', Err err) /\
       operation.enriched_error res err) /\
  (forall id name target : string,
     usgdns.do c "PUT" ("/records/" +:+ id)
       (Some {| db.ID := ""; db.Name := name; db.Target := target |}) net =
       (net', Ok res) ->
     http.StatusCode res ≠ 200 ->
     exists err,
       usgdns.UpdateRecord c id name target net = (net', Err err) /\
       operation.enriched_error res err).
Proof.
  destruct (enrich_block res) as (err & Hblock & Henriched).
  repeat split.
  - intros name target Hdo Hst. unfold usgdns.CreateRecord.
    fold http.MethodPost in Hdo. rewrite Hdo. cbv zeta.
    rewrite decide_True by done. rewrite Hblock. eauto.
  - intros id Hdo Hst. unfold usgdns.GetRecord.
    fold http.MethodGet in Hdo. rewrite Hdo. cbv zeta.
    rewrite decide_True by done. rewrite Hblock. eauto.
  - intros id name target Hdo Hst. unfold usgdns.UpdateRecord.
    fold http.MethodPut in Hdo. rewrite Hdo. cbv zeta.
    rewrite decide_True by done. rewrite Hblock. eauto.
Qed.

End error_enrichment.

(** The error example of the specification: [create] is refused with
    status 400 and a message. *)
Example create_conflict_scenario :
  @usgdns.CreateRecord scenario.refusing scenario.example_client
    "www" "1.2.3.4" [] =
  ([scenario.create_request],
   Err "error while executing the request: unexpected status code: 400: name already exists").
Proof. vm_compute. reflexivity. Qed.

Lemma C1_error_enrichment_witness :
  @usgdns.do scenario.refusing scenario.example_client "POST" "/records"
    (Some {| db.ID := ""; db.Name := "www"; db.Target := "1.2.3.4" |}) [] =
    ([scenario.create_request],
     Ok (http.mkResponse 400 (Ok scenario.body_conflict))) /\
  (400 : Z) ≠ 201 /\
  exists err,
    @usgdns.CreateRecord scenario.refusing scenario.example_client
      "www" "1.2.3.4" [] = ([scenario.create_request], Err err) /\
    @operation.enriched_error scenario.refusing
      (http.mkResponse 400 (Ok scenario.body_conflict)) err.
Proof.
  split; [vm_compute; reflexivity|]. split; [lia|].
  apply (proj1 (@C1_error_enrichment scenario.refusing
                  scenario.example_client [] [scenario.create_request]
                  (http.mkResponse 400 (Ok scenario.body_conflict)))).
  - vm_compute. reflexivity.
  - simpl. lia.
Defined.

(** ** Diagnostics *)

Lemma elem_of_Append (d : diag.Diagnostic) (new diags : diag.Diagnostics) :
  d ∈ diag.Append new diags <-> d ∈ diags \/ d ∈ new.
Proof.
  unfold diag.Append. revert diags.
  induction new as [|d' new IH]; intros diags; simpl.
  - rewrite elem_of_nil. tauto.
  - rewrite IH, elem_of_cons. case_decide.
    + split; [tauto|]. intros [H'|[->|H']]; tauto.
    + rewrite elem_of_app, list_elem_of_singleton. tauto.
Qed.

Lemma HasError_elem (diags : diag.Diagnostics) :
  diag.HasError diags = true <->
  exists d, d ∈ diags /\ diag.Sev d = diag.SeverityError.
Proof.
  unfold diag.HasError. rewrite existsb_exists.
  split; intros (d & Hin & Hsev); exists d.
  - apply bool_decide_eq_true in Hsev. by rewrite list_elem_of_In.
  - rewrite <- list_elem_of_In. by rewrite bool_decide_eq_true.
Qed.

Lemma HasError_Append_error (d : diag.Diagnostic) (diags : diag.Diagnostics) :
  diag.Sev d = diag.SeverityError ->
  diag.HasError (diag.Append [d] diags) = true.
Proof.
  intros Hsev. apply HasError_elem. exists d. split; [|done].
  apply elem_of_Append. right. by apply list_elem_of_singleton.
Qed.
(** ** provider Configure *)

(** The first pass: a configuration with an unknown value gets the
    unknown-value errors, and nothing else happens. *)
Lemma configure_unknown (env : os.Environ)
    (cfg : provider.usgDnsProviderModel) :
  types.IsUnknown (provider.URL cfg) = true \/
  types.IsUnknown (provider.Token cfg) = true ->
  validation.configure env cfg =
  provider.mkConfigureResponse
    ((if types.IsUnknown (provider.URL cfg)
      then [provider.unknownUrlDiag] else []) ++
     (if types.IsUnknown (provider.Token cfg)
      then [provider.unknownTokenDiag] else []))
    None None.
Proof.
  intros H. unfold validation.configure, provider.Configure. simpl.
  destruct (types.IsUnknown (provider.URL cfg)),
    (types.IsUnknown (provider.Token cfg));
    try (vm_compute; reflexivity).
  by destruct H.
Qed.

(** The second pass: without unknown values, the resolved URL and token
    are checked for emptiness, and the client is built from them when
    neither is empty. *)
Lemma configure_known (env : os.Environ)
    (cfg : provider.usgDnsProviderModel) :
  types.IsUnknown (provider.URL cfg) = false ->
  types.IsUnknown (provider.Token cfg) = false ->
  validation.configure env cfg =
  let url := provider.resolve env provider.envCfgUrl (provider.URL cfg) in
  let token :=
    provider.resolve env provider.envCfgToken (provider.Token cfg) in
  if decide (url = "") then
    provider.mkConfigureResponse
      (provider.missingUrlDiag ::
       if decide (token = "") then [provider.missingTokenDiag] else [])
      None None
  else if decide (token = "") then
    provider.mkConfigureResponse [provider.missingTokenDiag] None None
  else
    let client := usgdns.mkClient (strings.TrimSuffix url "/") token in
    provider.mkConfigureResponse [] (Some client) (Some client).
Proof.
  intros Hu Ht. unfold validation.configure, provider.Configure.
  simpl. rewrite Hu, Ht. simpl.
  destruct (decide (provider.resolve env provider.envCfgUrl _ = "")),
    (decide (provider.resolve env provider.envCfgToken _ = ""));
    simpl; try reflexivity; vm_compute; reflexivity.
Qed.

(** Every diagnostic of the response of [Configure] was in the response
    before, or is one of five: the conversion error of the framework,
    or the unknown-value or missing-value error of the URL or of the
    token. *)
Lemma Configure_diagnostics (env : os.Environ)
    (req : provider.ConfigureRequest) (resp : provider.ConfigureResponse)
    (d : diag.Diagnostic) :
  d ∈ provider.Diagnostics (provider.Configure env req resp) ->
  d ∈ provider.Diagnostics resp \/
  d ∈ [tfsdk.conversion_error; provider.unknownUrlDiag;
       provider.unknownTokenDiag; provider.missingUrlDiag;
       provider.missingTokenDiag].
Proof.
  set (known := [tfsdk.conversion_error; provider.unknownUrlDiag;
                 provider.unknownTokenDiag; provider.missingUrlDiag;
                 provider.missingTokenDiag]).
  set (Inv := fun r : provider.ConfigureResponse =>
         forall x, x ∈ provider.Diagnostics r ->
                   x ∈ provider.Diagnostics resp \/ x ∈ known).
  assert (Hstep : forall r new,
             Inv r -> (forall x, x ∈ new -> x ∈ known) ->
             Inv (provider.setDiagnostics (diag.Append new) r)).
  { intros r new Hr Hnew x Hx. simpl in Hx.
    apply elem_of_Append in Hx as [Hx|Hx]; [by apply Hr|].
    right. by apply Hnew. }
  assert (Hone : forall r path summary detail,
             Inv r ->
             diag.NewAttributeErrorDiagnostic path summary detail ∈ known ->
             Inv (provider.setDiagnostics
                    (diag.AddAttributeError path summary detail) r)).
  { intros r path summary detail Hr Hin. apply Hstep; [done|].
    intros x Hx. by apply list_elem_of_singleton in Hx as ->. }
  assert (Hknown : forall x, x ∈ known <->
             x = tfsdk.conversion_error \/ x = provider.unknownUrlDiag \/
             x = provider.unknownTokenDiag \/ x = provider.missingUrlDiag \/
             x = provider.missingTokenDiag).
  { intros x. unfold known. rewrite !elem_of_cons, elem_of_nil. tauto. }
  enough (Inv (provider.Configure env req resp)) as HInv by apply HInv.
  clear d. unfold provider.Configure.
  destruct (tfsdk.Get (provider.Config req) _) as [diags config] eqn:Hget.
  assert (Hdiags : forall x, x ∈ diags -> x ∈ known).
  { unfold tfsdk.Get in Hget.
    destruct (provider.Config req); simplify_eq; intros x Hx.
    - by apply elem_of_nil in Hx.
    - apply list_elem_of_singleton in Hx as ->. apply Hknown. tauto. }
  assert (H0 : Inv (provider.setDiagnostics (diag.Append diags) resp)).
  { apply Hstep; [|done]. intros x Hx. by left. }
  revert H0.
  generalize (provider.setDiagnostics (diag.Append diags) resp) as resp0.
  intros resp0 H0. cbv zeta.
  assert (Hclient : forall r a b,
             Inv r ->
             Inv (provider.mkConfigureResponse (provider.Diagnostics r) a b))
    by done.
  destruct (types.IsUnknown (provider.URL config)),
    (types.IsUnknown (provider.Token config)),
    (decide (provider.resolve env provider.envCfgUrl (provider.URL config)
             = "")),
    (decide (provider.resolve env provider.envCfgToken
               (provider.Token config) = ""));
    repeat match goal with
      | |- Inv (if diag.HasError ?ds then _ else _) =>
        destruct (diag.HasError ds)
      | |- Inv (provider.setDiagnostics (diag.AddAttributeError _ _ _) _) =>
        apply Hone; [|apply Hknown; tauto]
      | |- Inv (match usgdns.NewClient _ _ with _ => _ end) =>
        unfold usgdns.NewClient; apply Hclient
      end;
    exact H0.
Qed.

(** C10: [NewClient] returns a client and no error for every URL and
    token, so [Configure] never reports the failure of the client
    construction: a diagnostic with the summary [Unable to Create usg-dns
    API Client] in its response was in the response already when
    [Configure] was called. *)
Theorem C10_new_client_never_fails :
  (forall url token : string,
     exists client : usgdns.Client,
       usgdns.NewClient url token = Ok client) /\
  (forall (env : os.Environ) (req : provider.ConfigureRequest)
          (resp : provider.ConfigureResponse) (d : diag.Diagnostic),
     d ∈ provider.Diagnostics (provider.Configure env req resp) ->
     diag.Summary d = "Unable to Create usg-dns API Client" ->
     d ∈ provider.Diagnostics resp).
Proof.
  split.
  - intros url token. eexists. reflexivity.
  - intros env req resp d Hin Hsummary.
    apply Configure_diagnostics in Hin as [Hin|Hin]; [done|].
    repeat (apply elem_of_cons in Hin as [->|Hin]; [discriminate Hsummary|]).
    by apply elem_of_nil in Hin.
Qed.

Lemma C10_new_client_never_fails_witness :
  scenario.stale_diag ∈
    provider.Diagnostics
      (provider.Configure ∅
         (scenario.config types.StringNull types.StringNull)
         scenario.stale_response) /\
  diag.Summary scenario.stale_diag = "Unable to Create usg-dns API Client" /\
  scenario.stale_diag ∈ provider.Diagnostics scenario.stale_response.
Proof.
  assert (Hin : scenario.stale_diag ∈
            provider.Diagnostics
              (provider.Configure ∅
                 (scenario.config types.StringNull types.StringNull)
                 scenario.stale_response)).
  { vm_compute. apply list_elem_of_here. }
  split; [exact Hin|]. split; [reflexivity|].
  exact (proj2 C10_new_client_never_fails ∅
           (scenario.config types.StringNull types.StringNull)
           scenario.stale_response scenario.stale_diag Hin eq_refl).
Defined.

(** The claim C3 as the specification states it fails: with an unknown
    URL and a missing token, both fail validation, and the response
    reports the URL only, because [Configure] returns after the check
    for unknown values. *)
Lemma C3_counterexample :
  let cfg := provider.mkProviderModel types.StringUnknown types.StringNull in
  validation.fails ∅ provider.envCfgUrl (provider.URL cfg) /\
  validation.fails ∅ provider.envCfgToken (provider.Token cfg) /\
  provider.Diagnostics (validation.configure ∅ cfg) =
    [provider.unknownUrlDiag] /\
  ~ validation.reported "token" (validation.configure ∅ cfg).
Proof.
  cbv zeta. split; [by left|]. split; [right; by split|].
  split; [vm_compute; reflexivity|].
  intros (d & Hin & _ & Hpath).
  rewrite configure_unknown in Hin by (left; reflexivity).
  simpl in Hin. apply list_elem_of_singleton in Hin as ->.
  discriminate Hpath.
Qed.

(** C3 (amended): validation runs in two passes, and each pass reports
    all of its errors at once.  When the URL and the token are both
    unknown, or when neither is unknown and both are missing, the one
    response of [Configure] holds an error diagnostic for each of the
    two attributes (exactly these two, in the order URL, token), and no
    client is constructed. *)
Theorem C3_errors_of_one_pass_together (env : os.Environ)
    (cfg : provider.usgDnsProviderModel) :
  (validation.unknown (provider.URL cfg) /\
   validation.unknown (provider.Token cfg)) \/
  (validation.missing env provider.envCfgUrl (provider.URL cfg) /\
   validation.missing env provider.envCfgToken (provider.Token cfg)) ->
  validation.reported "url" (validation.configure env cfg) /\
  validation.reported "token" (validation.configure env cfg) /\
  (provider.Diagnostics (validation.configure env cfg) =
     [provider.unknownUrlDiag; provider.unknownTokenDiag] \/
   provider.Diagnostics (validation.configure env cfg) =
     [provider.missingUrlDiag; provider.missingTokenDiag]) /\
  validation.no_client (validation.configure env cfg).
Proof.
  unfold validation.unknown, validation.missing, validation.reported,
    validation.no_client.
  intros [[Hu Ht] | [[Hu Hurl] [Ht Htoken]]].
  - rewrite configure_unknown by (by left). rewrite Hu, Ht. simpl.
    split; [|split; [|split]].
    + exists provider.unknownUrlDiag. by rewrite elem_of_cons; auto.
    + exists provider.unknownTokenDiag.
      by rewrite !elem_of_cons; auto.
    + by left.
    + done.
  - rewrite configure_known by done. cbv zeta.
    rewrite !decide_True by done. simpl.
    split; [|split; [|split]].
    + exists provider.missingUrlDiag. by rewrite elem_of_cons; auto.
    + exists provider.missingTokenDiag.
      by rewrite !elem_of_cons; auto.
    + by right.
    + done.
Qed.

Lemma C3_errors_of_one_pass_together_witness :
  validation.unknown types.StringUnknown /\
  validation.reported "url"
    (validation.configure ∅
       (provider.mkProviderModel types.StringUnknown types.StringUnknown)) /\
  validation.reported "token"
    (validation.configure ∅
       (provider.mkProviderModel types.StringUnknown types.StringUnknown)).
Proof.
  split; [reflexivity|].
  destruct (C3_errors_of_one_pass_together ∅
              (provider.mkProviderModel types.StringUnknown
                 types.StringUnknown))
    as (Hurl & Htoken & _).
  - left. split; reflexivity.
  - split; assumption.
Defined.

(** The claim C2 as the specification states it, for every combination
    of values, fails.  With a null URL, no USG_DNS_URL and an unknown
    token the resolved URL is empty, yet the response holds no
    missing-URL error, only the unknown-token one.  And with a null URL
    and USG_DNS_URL set, a missing token leaves the provider without any
    client, so that the value of the environment is the URL of none. *)
Lemma C2_counterexample :
  (let cfg := provider.mkProviderModel types.StringNull types.StringUnknown in
   provider.resolve ∅ provider.envCfgUrl (provider.URL cfg) = "" /\
   provider.Diagnostics (validation.configure ∅ cfg) =
     [provider.unknownTokenDiag] /\
   provider.missingUrlDiag ∉ provider.Diagnostics (validation.configure ∅ cfg))
  /\
  (let cfg := provider.mkProviderModel types.StringNull types.StringNull in
   scenario.env_url_only !! provider.envCfgUrl =
     Some "https://dns.example.com" /\
   validation.no_client (validation.configure scenario.env_url_only cfg)).
Proof.
  cbv zeta. split.
  - split; [reflexivity|]. split; [vm_compute; reflexivity|].
    rewrite configure_unknown by (right; reflexivity). simpl.
    intros Hin. apply list_elem_of_singleton in Hin. discriminate Hin.
  - split; vm_compute; auto.
Qed.

(** C2 (amended): for every environment and every configuration without
    an unknown value (an unknown value stops [Configure] before
    anything is resolved), the resolved URL is the value of USG_DNS_URL
    when the configuration value is null and the configuration value
    otherwise, even if USG_DNS_URL is set; an empty resolved URL yields
    the missing-URL error and no client; the same holds for the token
    and USG_DNS_TOKEN; and when both resolved values are non-empty,
    there are no diagnostics and the client is the one [NewClient]
    builds from exactly these two values. *)
Theorem C2_configuration_resolution (env : os.Environ)
    (cfg : provider.usgDnsProviderModel) :
  types.IsUnknown (provider.URL cfg) = false ->
  types.IsUnknown (provider.Token cfg) = false ->
  let url := provider.resolve env provider.envCfgUrl (provider.URL cfg) in
  let token :=
    provider.resolve env provider.envCfgToken (provider.Token cfg) in
  let resp := validation.configure env cfg in
  (provider.URL cfg = types.StringNull ->
   url = os.Getenv env "USG_DNS_URL" /\
   forall v, env !! "USG_DNS_URL" = Some v -> url = v) /\
  (forall v, provider.URL cfg = types.StringValue v -> url = v) /\
  (provider.Token cfg = types.StringNull ->
   token = os.Getenv env "USG_DNS_TOKEN" /\
   forall v, env !! "USG_DNS_TOKEN" = Some v -> token = v) /\
  (forall v, provider.Token cfg = types.StringValue v -> token = v) /\
  (url = "" ->
   provider.missingUrlDiag ∈ provider.Diagnostics resp /\
   validation.no_client resp) /\
  (token = "" ->
   provider.missingTokenDiag ∈ provider.Diagnostics resp /\
   validation.no_client resp) /\
  (url ≠ "" -> token ≠ "" ->
   provider.Diagnostics resp = [] /\
   exists client : usgdns.Client,
     usgdns.NewClient url token = Ok client /\
     provider.DataSourceData resp = Some client /\
     provider.ResourceData resp = Some client).
Proof.
  intros Hu Ht url token resp.
  assert (Hresp : resp = _) by exact (configure_known env cfg Hu Ht).
  cbv zeta in Hresp. fold url token in Hresp.
  split; [|split; [|split; [|split; [|split; [|split]]]]].
  - intros Hnull. unfold url, provider.resolve, os.Getenv.
    rewrite Hnull. simpl. split; [done|].
    intros v Hv. unfold provider.envCfgUrl. by rewrite Hv.
  - intros v Hv. unfold url, provider.resolve. by rewrite Hv.
  - intros Hnull. unfold token, provider.resolve, os.Getenv.
    rewrite Hnull. simpl. split; [done|].
    intros v Hv. unfold provider.envCfgToken. by rewrite Hv.
  - intros v Hv. unfold token, provider.resolve. by rewrite Hv.
  - intros Hurl. rewrite Hresp, decide_True by done.
    split; [apply list_elem_of_here | done].
  - intros Htoken. rewrite Hresp.
    destruct (decide (url = "")); rewrite decide_True by done.
    + split; [|done]. apply list_elem_of_further, list_elem_of_here.
    + split; [|done]. apply list_elem_of_here.
  - intros Hurl Htoken. rewrite Hresp, !decide_False by done. cbv zeta.
    split; [done|]. eexists. by split.
Qed.

Lemma C2_configuration_resolution_witness :
  types.IsUnknown types.StringNull = false /\
  (provider.resolve scenario.env_both provider.envCfgUrl types.StringNull =
     "https://dns.example.com" /\
   provider.resolve scenario.env_both provider.envCfgToken
     (types.StringValue "other") = "other") /\
  provider.ResourceData
    (validation.configure scenario.env_both
       (provider.mkProviderModel types.StringNull
          (types.StringValue "other"))) =
    Some (usgdns.mkClient "https://dns.example.com" "other").
Proof.
  split; [reflexivity|]. split; [split; vm_compute; reflexivity|].
  destruct (C2_configuration_resolution scenario.env_both
              (provider.mkProviderModel types.StringNull
                 (types.StringValue "other")) eq_refl eq_refl)
    as (_ & _ & _ & _ & _ & _ & Hclient).
  destruct Hclient as (_ & client & Hnew & _ & Hres).
  - vm_compute. discriminate.
  - vm_compute. discriminate.
  - rewrite Hres. f_equal. vm_compute in Hnew. by injection Hnew as <-.
Defined.

(** ** The record resource *)

Section record_resource.
Context `{RT : Runtime}.
Import provider provider.recordResource.

(** C5: for every plan, handed to [Create] with a response that holds no
    error yet: when [CreateRecord] returns a record, the state of the
    response is set to the model whose ID, Name and Target are the
    fields of that record, and no diagnostic is added; when
    [CreateRecord] fails, the response gets an error diagnostic with the
    error text and its state is the one it had before the call, so that
    nothing is persisted. *)
Theorem C5_create_persists_record_or_nothing (r : recordResource)
    (plan : recordResourceModel) (resp : CreateResponse)
    (net : usgdns.Net) :
  diag.HasError (CreateDiagnostics resp) = false ->
  (forall (net' : usgdns.Net) (record : DnsRecord),
     usgdns.CreateRecord (client r) (types.ValueString (Name plan))
       (types.ValueString (Target plan)) net = (net', Ok record) ->
     Create r (mkCreateRequest (Some plan)) resp net =
     (net',
      mkCreateResponse
        (Some (mkRecordModel (types.StringValue (db.ID record))
                 (types.StringValue (db.Name record))
                 (types.StringValue (db.Target record))))
        (CreateDiagnostics resp))) /\
  (forall (net' : usgdns.Net) (err : error),
     usgdns.CreateRecord (client r) (types.ValueString (Name plan))
       (types.ValueString (Target plan)) net = (net', Err err) ->
     exists resp' : CreateResponse,
       Create r (mkCreateRequest (Some plan)) resp net = (net', resp') /\
       CreateState resp' = CreateState resp /\
       diag.NewErrorDiagnostic "Unable to create the usg-dns record" err
         ∈ CreateDiagnostics resp' /\
       diag.HasError (CreateDiagnostics resp') = true).
Proof.
  intros Hclean. unfold Create. simpl. rewrite Hclean. split.
  - intros net' record ->. reflexivity.
  - intros net' err ->. eexists. split; [reflexivity|]. simpl.
    split; [done|]. split.
    + apply elem_of_Append. right. apply list_elem_of_here.
    + by apply HasError_Append_error.
Qed.

(** C4: for every state, handed to [Read] with a response that holds no
    error yet: when [GetRecord] on the ID of the state returns a record,
    the state of the response becomes the starting state with its Name
    and Target replaced by those of the record and its ID as it was;
    when [GetRecord] fails, the response gets the read-error diagnostic
    and its state is the one it had before the call. *)
Theorem C4_read_refreshes_name_and_target (r : recordResource)
    (state : recordResourceModel) (resp : ReadResponse)
    (net : usgdns.Net) :
  diag.HasError (ReadDiagnostics resp) = false ->
  (forall (net' : usgdns.Net) (record : DnsRecord),
     usgdns.GetRecord (client r) (types.ValueString (ID state)) net =
       (net', Ok record) ->
     Read r (mkReadRequest (Some state)) resp net =
     (net',
      mkReadResponse
        (Some (mkRecordModel (ID state)
                 (types.StringValue (db.Name record))
                 (types.StringValue (db.Target record))))
        (ReadDiagnostics resp))) /\
  (forall (net' : usgdns.Net) (err : error),
     usgdns.GetRecord (client r) (types.ValueString (ID state)) net =
       (net', Err err) ->
     exists resp' : ReadResponse,
       Read r (mkReadRequest (Some state)) resp net = (net', resp') /\
       ReadState resp' = ReadState resp /\
       diag.NewErrorDiagnostic "Error Reading usg-dns record"
         ("Could not read usg-dns record ID " +:+
          types.ValueString (ID state) +:+ ": " +:+ err)
         ∈ ReadDiagnostics resp' /\
       diag.HasError (ReadDiagnostics resp') = true).
Proof.
  intros Hclean. unfold Read. simpl. rewrite Hclean. split.
  - intros net' record ->. reflexivity.
  - intros net' err ->. eexists. split; [reflexivity|]. simpl.
    split; [done|]. split.
    + apply elem_of_Append. right. apply list_elem_of_here.
    + by apply HasError_Append_error.
Qed.

End record_resource.

(** ** The records data source *)

Section records_data_source.
Context `{RT : Runtime}.
Import provider provider.recordsDataSource.



End records_data_source.

(** ** The adapters on the scenarios *)

Lemma C5_create_persists_record_or_nothing_witness :
  diag.HasError [] = false /\
  @usgdns.CreateRecord scenario.creating scenario.example_client
    "www" "1.2.3.4" [] =
    ([scenario.create_request],
     Ok {| db.ID := "42"; db.Name := "www"; db.Target := "1.2.3.4" |}) /\
  @provider.recordResource.Create scenario.creating scenario.resource
    (provider.recordResource.mkCreateRequest (Some scenario.plan_www))
    (provider.recordResource.mkCreateResponse None []) [] =
  ([scenario.create_request],
   provider.recordResource.mkCreateResponse
     (Some (provider.mkRecordModel (types.StringValue "42")
              (types.StringValue "www") (types.StringValue "1.2.3.4")))
     []).
Proof.
  split; [reflexivity|]. split; [vm_compute; reflexivity|].
  apply (proj1 (@C5_create_persists_record_or_nothing scenario.creating
                  scenario.resource scenario.plan_www
                  (provider.recordResource.mkCreateResponse None []) []
                  eq_refl)
           [scenario.create_request]
           {| db.ID := "42"; db.Name := "www"; db.Target := "1.2.3.4" |}).
  vm_compute. reflexivity.
Defined.

(** A refused creation leaves the null state of the response as it
    is. *)
Example create_refused_scenario :
  (@provider.recordResource.Create scenario.refusing scenario.resource
     (provider.recordResource.mkCreateRequest (Some scenario.plan_www))
     (provider.recordResource.mkCreateResponse None []) []).2 =
  provider.recordResource.mkCreateResponse None
    [diag.NewErrorDiagnostic "Unable to create the usg-dns record"
       "error while executing the request: unexpected status code: 400: name already exists"].
Proof. vm_compute. reflexivity. Qed.

Lemma C4_read_refreshes_name_and_target_witness :
  diag.HasError [] = false /\
  @usgdns.GetRecord scenario.serving scenario.example_client "42" [] =
    ([http.mkRequest "GET" "https://dns.example.com/records/42"
        {[ "Authorization" := ["secret"] ]} None],
     Ok {| db.ID := "42"; db.Name := "www"; db.Target := "1.2.3.4" |}) /\
  (@provider.recordResource.Read scenario.serving scenario.resource
     (provider.recordResource.mkReadRequest (Some scenario.state_www))
     (provider.recordResource.mkReadResponse (Some scenario.state_www) [])
     []).2 =
  provider.recordResource.mkReadResponse
    (Some (provider.mkRecordModel (types.StringValue "42")
             (types.StringValue "www") (types.StringValue "1.2.3.4")))
    [].
Proof.
  split; [reflexivity|]. split; [vm_compute; reflexivity|].
  rewrite (proj1 (@C4_read_refreshes_name_and_target scenario.serving
                    scenario.resource scenario.state_www
                    (provider.recordResource.mkReadResponse
                       (Some scenario.state_www) []) []
                    eq_refl)
             [http.mkRequest "GET" "https://dns.example.com/records/42"
                {[ "Authorization" := ["secret"] ]} None]
             {| db.ID := "42"; db.Name := "www"; db.Target := "1.2.3.4" |}).
  - reflexivity.
  - vm_compute. reflexivity.
Defined.

(** A record that the remote end does not find: the error is reported
    and the state stays what it was. *)
Example read_missing_scenario :
  (@provider.recordResource.Read scenario.missing scenario.resource
     (provider.recordResource.mkReadRequest (Some scenario.state_www))
     (provider.recordResource.mkReadResponse (Some scenario.state_www) [])
     []).2 =
  provider.recordResource.mkReadResponse (Some scenario.state_www)
    [diag.NewErrorDiagnostic "Error Reading usg-dns record"
       "Could not read usg-dns record ID 42: error while executing the request: unexpected status code: 404"].
Proof. vm_compute. reflexivity. Qed.


(** * Further properties of the client *)

Section client_outcomes.
Context `{RT : Runtime}.

(** The result of an operation whose call of [do] has failed, before or
    after the request went out. *)
Lemma run_do_failed (op : operation.t) (c : usgdns.Client)
    (net net' : usgdns.Net) (err : error) :
  usgdns.do c (operation.method op) (operation.path op)
    (operation.body op) net = (net', Err err) ->
  operation.run op c net =
    (net', Some ("error while executing the request: " +:+ err)).
Proof.
  intros Hdo.
  destruct op; simpl in *;
    unfold usgdns.GetRecords, usgdns.GetRecord, usgdns.CreateRecord,
      usgdns.UpdateRecord, usgdns.DeleteRecord;
    rewrite Hdo; reflexivity.
Qed.

(** The request that [do] has sent, in full. *)
Lemma do_sent (c : usgdns.Client) (method uri : string)
    (body : option DnsRecord) (net : usgdns.Net) (req : http.Request) :
  (usgdns.do c method uri body net).1 = net ++ [req] ->
  exists (u : url_URL) (bytes : option string),
    url_Parse (usgdns.url c +:+ uri) = Ok u /\
    match body with
    | Some b => exists text, json_Marshal b = Ok text /\ bytes = Some text
    | None => bytes = None
    end /\
    req = http.mkRequest method (url_String u)
            {[ "Authorization" := [usgdns.token c] ]} bytes /\
    (usgdns.do c method uri body net).2 = http_Do net req.
Proof.
  assert (Hlen : forall r : http.Request, net ≠ net ++ [r]).
  { intros r H. apply (f_equal length) in H.
    rewrite length_app in H. simpl in H. lia. }
  unfold usgdns.do, http_NewRequest.
  destruct (url_Parse _) as [u|e]; simpl; [|intros H; by apply Hlen in H].
  destruct body as [b|].
  - destruct (json_Marshal b) as [text|e]; simpl;
      [|intros H; by apply Hlen in H].
    destruct (http_NewRequest_refuses _ _); simpl;
      [intros H; by apply Hlen in H|].
    intros H. apply app_inv_head in H. injection H as <-.
    exists u, (Some text). eauto 10.
  - destruct (http_NewRequest_refuses _ _); simpl;
      [intros H; by apply Hlen in H|].
    intros H. apply app_inv_head in H. injection H as <-.
    exists u, None. eauto 10.
Qed.

(** X1: [GetRecords] does not look at the body of an answer with
    another status than 200: its error is the status text alone,
    whatever the body holds, also a message. *)
Theorem GetRecords_status_error_is_plain (c : usgdns.Client)
    (net net' : usgdns.Net) (res : http.Response) :
  usgdns.do c "GET" "/records" None net = (net', Ok res) ->
  http.StatusCode res ≠ 200 ->
  usgdns.GetRecords c net =
    (net',
     Err ("error while executing the request: unexpected status code: "
          +:+ pretty (http.StatusCode res))).
Proof.
  intros Hdo Hst. unfold usgdns.GetRecords.
  fold http.MethodGet in Hdo. rewrite Hdo.
  by rewrite decide_True.
Qed.

(** X2: [CreateRecord], [GetRecord] and [UpdateRecord] return a record
    exactly when the request was answered with the expected status (201,
    200, 200) and a readable body that decodes to that record. *)
Theorem record_returned_exactly_when (c : usgdns.Client)
    (net net' : usgdns.Net) (record : DnsRecord) :
  (forall name target : string,
     usgdns.CreateRecord c name target net = (net', Ok record) <->
     exists res body,
       usgdns.do c "POST" "/records"
         (Some {| db.ID := ""; db.Name := name; db.Target := target |}) net =
         (net', Ok res) /\
       http.StatusCode res = 201 /\
       http.Body res = Ok body /\
       json_Unmarshal_Record body = Ok record) /\
  (forall id : string,
     usgdns.GetRecord c id net = (net', Ok record) <->
     exists res body,
       usgdns.do c "GET" ("/records/" +:+ id) None net = (net', Ok res) /\
       http.StatusCode res = 200 /\
       http.Body res = Ok body /\
       json_Unmarshal_Record body = Ok record) /\
  (forall id name target : string,
     usgdns.UpdateRecord c id name target net = (net', Ok record) <->
     exists res body,
       usgdns.do c "PUT" ("/records/" +:+ id)
         (Some {| db.ID := ""; db.Name := name; db.Target := target |}) net =
         (net', Ok res) /\
       http.StatusCode res = 200 /\
       http.Body res = Ok body /\
       json_Unmarshal_Record body = Ok record).
Proof.
  assert (Hfwd : forall (sent : usgdns.Net * result http.Response)
                        (expected : Z),
    (let '(net0, r) := sent in
     let r :=
       match r with
       | Ok res =>
         if decide (http.StatusCode res ≠ expected)
         then
           let err := usgdns.unexpected_status res in
           match usgdns.getError res with
           | Ok errMsg =>
             if decide (errMsg ≠ "") then Err (wrap err errMsg) else Err err
           | Err _ => Err err
           end
         else Ok res
       | Err err => Err err
       end in
     match r with
     | Err err => (net0, Err (wrap "error while executing the request" err))
     | Ok res =>
       match usgdns.unmarshal json_Unmarshal_Record res with
       | Err err => (net0, Err (wrap "unable to get the result" err))
       | Ok record => (net0, Ok record)
       end
     end) = (net', Ok record) <->
    exists res body,
      sent = (net', Ok res) /\ http.StatusCode res = expected /\
      http.Body res = Ok body /\ json_Unmarshal_Record body = Ok record).
  { intros [net0 [res|err]] expected; cbv zeta; unfold usgdns.unmarshal.
    - split.
      + destruct (decide (http.StatusCode res ≠ expected)) as [Hne|Heq].
        { intros H. repeat case_match; simplify_eq. }
        apply dec_stable in Heq.
        destruct (http.Body res) as [body|e] eqn:Hbody; [|intros [=]].
        destruct (json_Unmarshal_Record body) as [rec|e] eqn:Hrec;
          intros [=]; subst. exists res, body. done.
      + intros (res' & body & [= -> <-] & Hst & Hbody & Hrec).
        rewrite decide_False by (intros H; by apply H).
        by rewrite Hbody, Hrec.
    - split; [intros [=]|]. intros (res & body & [=] & _). }
  split; [|split].
  - intros name target. apply (Hfwd _ 201).
  - intros id. apply (Hfwd _ 200).
  - intros id name target. apply (Hfwd _ 200).
Qed.

End client_outcomes.

Lemma GetRecords_status_error_is_plain_witness :
  @usgdns.do scenario.failing scenario.example_client "GET" "/records"
    None [] =
    ([scenario.list_request],
     Ok (http.mkResponse 500 (Ok scenario.body_conflict))) /\
  @usgdns.GetRecords scenario.failing scenario.example_client [] =
    ([scenario.list_request],
     Err "error while executing the request: unexpected status code: 500").
Proof.
  split; [vm_compute; reflexivity|].
  apply (@GetRecords_status_error_is_plain scenario.failing
           scenario.example_client [] [scenario.list_request]
           (http.mkResponse 500 (Ok scenario.body_conflict))).
  - vm_compute. reflexivity.
  - simpl. lia.
Defined.

Lemma record_returned_exactly_when_witness :
  @usgdns.GetRecord scenario.serving scenario.example_client "42" [] =
    ([scenario.get_request], Ok scenario.record_www) /\
  exists res body,
    @usgdns.do scenario.serving scenario.example_client "GET"
      ("/records/" +:+ "42") None [] = ([scenario.get_request], Ok res) /\
    http.StatusCode res = 200 /\
    http.Body res = Ok body /\
    @json_Unmarshal_Record scenario.serving body = Ok scenario.record_www.
Proof.
  assert (H : @usgdns.GetRecord scenario.serving scenario.example_client
                "42" [] = ([scenario.get_request], Ok scenario.record_www))
    by (vm_compute; reflexivity).
  split; [exact H|].
  apply (proj1 (proj1 (proj2 (@record_returned_exactly_when scenario.serving
                  scenario.example_client [] [scenario.get_request]
                  scenario.record_www)) "42")).
  exact H.
Defined.

Section client_failures.
Context `{RT : Runtime}.

(** X3: [GetRecords] returns a list exactly when the request was
    answered with status 200 and a readable body that decodes to that
    list. *)
Theorem records_returned_exactly_when (c : usgdns.Client)
    (net net' : usgdns.Net) (records : list DnsRecord) :
  usgdns.GetRecords c net = (net', Ok records) <->
  exists res body,
    usgdns.do c "GET" "/records" None net = (net', Ok res) /\
    http.StatusCode res = 200 /\
    http.Body res = Ok body /\
    json_Unmarshal_Records body = Ok records.
Proof.
  unfold usgdns.GetRecords, usgdns.unmarshal.
  fold http.MethodGet. unfold http.StatusOK.
  destruct (usgdns.do _ _ _ _ _) as [net0 [res|err]].
  - split.
    + destruct (decide (http.StatusCode res ≠ 200)) as [Hne|Heq];
        [intros [=]|].
      apply dec_stable in Heq.
      destruct (http.Body res) as [body|e] eqn:Hbody; [|intros [=]].
      destruct (json_Unmarshal_Records body) as [rs|e] eqn:Hrs;
        intros [=]; subst. exists res, body. done.
    + intros (res' & body & [= -> <-] & Hst & Hbody & Hrs).
      rewrite decide_False by (intros H; by apply H).
      by rewrite Hbody, Hrs.
  - split; [intros [=]|]. intros (res & body & [=] & _).
Qed.

(** X4: an answer with the expected status whose body cannot be read,
    or cannot be decoded, makes [GetRecords], [CreateRecord],
    [GetRecord] and [UpdateRecord] fail with [unable to get the result],
    followed by the step that failed and its error. *)
Theorem undecodable_answer_is_an_error (c : usgdns.Client)
    (net net' : usgdns.Net) (res : http.Response) :
  let outcome {A : Type} (decode : string -> result A) : result A :=
    match http.Body res with
    | Err e =>
      Err ("unable to get the result: unable to read the body: " +:+ e)
    | Ok body =>
      match decode body with
      | Err e =>
        Err ("unable to get the result: unable to unmarshal the body: "
             +:+ e)
      | Ok v => Ok v
      end
    end in
  (usgdns.do c "GET" "/records" None net = (net', Ok res) ->
   http.StatusCode res = 200 ->
   usgdns.GetRecords c net = (net', outcome json_Unmarshal_Records)) /\
  (forall name target : string,
     usgdns.do c "POST" "/records"
       (Some {| db.ID := ""; db.Name := name; db.Target := target |}) net =
       (net', Ok res) ->
     http.StatusCode res = 201 ->
     usgdns.CreateRecord c name target net =
       (net', outcome json_Unmarshal_Record)) /\
  (forall id : string,
     usgdns.do c "GET" ("/records/" +:+ id) None net = (net', Ok res) ->
     http.StatusCode res = 200 ->
     usgdns.GetRecord c id net = (net', outcome json_Unmarshal_Record)) /\
  (forall id name target : string,
     usgdns.do c "PUT" ("/records/" +:+ id)
       (Some {| db.ID := ""; db.Name := name; db.Target := target |}) net =
       (net', Ok res) ->
     http.StatusCode res = 200 ->
     usgdns.UpdateRecord c id name target net =
       (net', outcome json_Unmarshal_Record)).
Proof.
  cbv zeta.
  split; [|split; [|split]]; intros; 
    unfold usgdns.GetRecords, usgdns.CreateRecord, usgdns.GetRecord,
      usgdns.UpdateRecord, usgdns.unmarshal;
    fold http.MethodGet http.MethodPost http.MethodPut in *;
    match goal with H : usgdns.do _ _ _ _ _ = _ |- _ => rewrite H end;
    cbv zeta;
    rewrite decide_False by (intros Hne; by apply Hne);
    destruct (http.Body res) as [body|e]; try reflexivity;
    match goal with
    | |- context [json_Unmarshal_Records ?b] =>
      destruct (json_Unmarshal_Records b)
    | |- context [json_Unmarshal_Record ?b] =>
      destruct (json_Unmarshal_Record b)
    end; reflexivity.
Qed.

(** X5: when the transport fails for the request of an operation, the
    operation returns the error of the transport after [error while
    executing the request], whichever of the five it is. *)
Theorem transport_failure_is_wrapped (op : operation.t)
    (c : usgdns.Client) (net : usgdns.Net) (req : http.Request)
    (err : error) :
  (operation.run op c net).1 = net ++ [req] ->
  http_Do net req = Err err ->
  (operation.run op c net).2 =
    Some ("error while executing the request: " +:+ err).
Proof.
  intros Hsent Hfail. rewrite run_net in Hsent.
  destruct (do_sent _ _ _ _ _ _ Hsent) as (u & bytes & _ & _ & _ & Hres).
  rewrite Hfail in Hres.
  destruct (usgdns.do c _ _ _ net) as [net' r] eqn:Hdo. simpl in *.
  subst. by rewrite (run_do_failed _ _ _ _ _ Hdo).
Qed.

(** X6: when the request of an operation cannot be built, nothing is
    sent and the error names the step: the URL that does not parse, the
    record that cannot be encoded (for an operation with a body), or
    the request that [http.NewRequest] refuses. *)
Theorem nothing_sent_when_request_cannot_be_built (op : operation.t)
    (c : usgdns.Client) (net : usgdns.Net) :
  (forall e,
     url_Parse (usgdns.url c +:+ operation.path op) = Err e ->
     operation.run op c net =
       (net,
        Some ("error while executing the request: unable to parse the URL: "
              +:+ e))) /\
  (forall u b e,
     url_Parse (usgdns.url c +:+ operation.path op) = Ok u ->
     operation.body op = Some b ->
     json_Marshal b = Err e ->
     operation.run op c net =
       (net,
        Some ("error while executing the request: unable to marshal the body: "
              +:+ e))) /\
  (forall u e,
     url_Parse (usgdns.url c +:+ operation.path op) = Ok u ->
     (forall b, operation.body op = Some b ->
                exists text, json_Marshal b = Ok text) ->
     http_NewRequest_refuses (operation.method op) (url_String u) = Some e ->
     operation.run op c net =
       (net,
        Some ("error while executing the request: unable to build the request: "
              +:+ e))).
Proof.
  split; [|split].
  - intros e Hu. apply run_do_failed. unfold usgdns.do. by rewrite Hu.
  - intros u b e Hu Hb He. apply run_do_failed. unfold usgdns.do.
    by rewrite Hu, Hb, He.
  - intros u e Hu Hb He. apply run_do_failed.
    unfold usgdns.do, http_NewRequest. rewrite Hu.
    destruct (operation.body op) as [b|].
    + destruct (Hb b eq_refl) as [text ->]. by rewrite He.
    + by rewrite He.
Qed.

(** X7: the request of [CreateRecord] and of [UpdateRecord] carries the
    encoding of the record with the given name and target and an empty
    ID (the id of an update travels in the path only); the request of
    the three other operations carries no body. *)
Theorem request_body_of_operation (op : operation.t) (c : usgdns.Client)
    (net : usgdns.Net) (req : http.Request) :
  (operation.run op c net).1 = net ++ [req] ->
  match op with
  | operation.Create name target | operation.Update _ name target =>
    exists text,
      json_Marshal {| db.ID := ""; db.Name := name; db.Target := target |} =
        Ok text /\
      http.ReqBody req = Some text
  | operation.List | operation.Get _ | operation.Delete _ =>
    http.ReqBody req = None
  end.
Proof.
  intros Hsent. rewrite run_net in Hsent.
  destruct (do_sent _ _ _ _ _ _ Hsent) as (u & bytes & _ & Hb & -> & _).
  destruct op; simpl in *; subst; done.
Qed.


End client_failures.

Lemma records_returned_exactly_when_witness :
  @usgdns.GetRecords scenario.listing scenario.example_client [] =
    ([scenario.list_request],
     Ok [scenario.record_www;
         {| db.ID := "7"; db.Name := "mail"; db.Target := "5.6.7.8" |}]) /\
  exists res body,
    @usgdns.do scenario.listing scenario.example_client "GET" "/records"
      None [] = ([scenario.list_request], Ok res) /\
    http.StatusCode res = 200 /\
    http.Body res = Ok body /\
    @json_Unmarshal_Records scenario.listing body =
      Ok [scenario.record_www;
          {| db.ID := "7"; db.Name := "mail"; db.Target := "5.6.7.8" |}].
Proof.
  assert (H : @usgdns.GetRecords scenario.listing scenario.example_client
                [] =
              ([scenario.list_request],
               Ok [scenario.record_www;
                   {| db.ID := "7"; db.Name := "mail";
                      db.Target := "5.6.7.8" |}]))
    by (vm_compute; reflexivity).
  split; [exact H|].
  apply (proj1 (@records_returned_exactly_when scenario.listing
                  scenario.example_client [] [scenario.list_request] _)).
  exact H.
Defined.

Lemma undecodable_answer_is_an_error_witness :
  @usgdns.do scenario.garbled scenario.example_client "GET"
    ("/records/" +:+ "42") None [] =
    ([scenario.get_request], Ok (http.mkResponse 200 (Ok "<html>"))) /\
  @usgdns.GetRecord scenario.garbled scenario.example_client "42" [] =
    ([scenario.get_request],
     Err "unable to get the result: unable to unmarshal the body: invalid character in JSON input").
Proof.
  split; [vm_compute; reflexivity|].
  rewrite (proj1 (proj2 (proj2 (@undecodable_answer_is_an_error
             scenario.garbled scenario.example_client []
             [scenario.get_request]
             (http.mkResponse 200 (Ok "<html>"))))) "42").
  - vm_compute. reflexivity.
  - vm_compute. reflexivity.
  - reflexivity.
Defined.

Lemma transport_failure_is_wrapped_witness :
  (@operation.run scenario.unreachable (operation.Delete "42")
     scenario.example_client []).1 = [] ++ [scenario.delete_request] /\
  @http_Do scenario.unreachable [] scenario.delete_request =
    Err "dial tcp: connection refused" /\
  (@operation.run scenario.unreachable (operation.Delete "42")
     scenario.example_client []).2 =
    Some "error while executing the request: dial tcp: connection refused".
Proof.
  split; [vm_compute; reflexivity|]. split; [reflexivity|].
  apply (@transport_failure_is_wrapped scenario.unreachable
           (operation.Delete "42") scenario.example_client []
           scenario.delete_request "dial tcp: connection refused").
  - vm_compute. reflexivity.
  - reflexivity.
Defined.

Lemma nothing_sent_when_request_cannot_be_built_witness :
  @operation.run scenario.creating operation.List scenario.broken_client [] =
    ([],
     Some "error while executing the request: unable to parse the URL: net/url: invalid control character in URL") /\
  @operation.run scenario.unencodable (operation.Create "www" "1.2.3.4")
    scenario.example_client [] =
    ([],
     Some "error while executing the request: unable to marshal the body: json: unsupported value") /\
  @operation.run scenario.unbuildable (operation.Get "42")
    scenario.example_client [] =
    ([],
     Some "error while executing the request: unable to build the request: net/http: nil Context").
Proof.
  split; [|split].
  - apply (proj1 (@nothing_sent_when_request_cannot_be_built
                    scenario.creating operation.List scenario.broken_client
                    [])).
    vm_compute. reflexivity.
  - apply (proj1 (proj2 (@nothing_sent_when_request_cannot_be_built
                    scenario.unencodable (operation.Create "www" "1.2.3.4")
                    scenario.example_client []))
             "https://dns.example.com/records"
             {| db.ID := ""; db.Name := "www"; db.Target := "1.2.3.4" |}).
    + vm_compute. reflexivity.
    + reflexivity.
    + reflexivity.
  - apply (proj2 (proj2 (@nothing_sent_when_request_cannot_be_built
                    scenario.unbuildable (operation.Get "42")
                    scenario.example_client []))
             "https://dns.example.com/records/42").
    + vm_compute. reflexivity.
    + intros b [=].
    + reflexivity.
Defined.

Lemma request_body_of_operation_witness :
  (@operation.run scenario.serving
     (operation.Update "42" "www" "1.2.3.4") scenario.example_client []).1 =
    [] ++ [scenario.update_request] /\
  exists text,
    @json_Marshal scenario.serving
      {| db.ID := ""; db.Name := "www"; db.Target := "1.2.3.4" |} = Ok text /\
    http.ReqBody scenario.update_request = Some text.
Proof.
  split; [vm_compute; reflexivity|].
  apply (@request_body_of_operation scenario.serving
           (operation.Update "42" "www" "1.2.3.4") scenario.example_client
           [] scenario.update_request).
  vm_compute. reflexivity.
Defined.


(** * Further properties of the provider *)

(** X9: started on the empty response, [Configure] hands out a client
    exactly when it reports no error, and then it reports nothing at
    all; the data source and the resource always get the same client. *)
Theorem Configure_client_exactly_without_error (env : os.Environ)
    (req : provider.ConfigureRequest) :
  let resp := provider.Configure env req provider.emptyConfigureResponse in
  ((exists client, provider.ResourceData resp = Some client) <->
   diag.HasError (provider.Diagnostics resp) = false) /\
  (diag.HasError (provider.Diagnostics resp) = false <->
   provider.Diagnostics resp = []) /\
  provider.DataSourceData resp = provider.ResourceData resp.
Proof.
  destruct req as [[cfg|]].
  2: { vm_compute. split; [|split; [|done]]; split; try done.
       by intros [? [=]]. }
  change (provider.Configure env _ _) with (validation.configure env cfg).
  cbv zeta.
  destruct (types.IsUnknown (provider.URL cfg)) eqn:Hu;
    [|destruct (types.IsUnknown (provider.Token cfg)) eqn:Ht].
  - rewrite configure_unknown by (by left). rewrite Hu. simpl.
    split; [|split; [|done]]; split; try done; by intros [? [=]].
  - rewrite configure_unknown by (by right). rewrite Hu, Ht. simpl.
    split; [|split; [|done]]; split; try done; by intros [? [=]].
  - rewrite configure_known by done. cbv zeta.
    repeat case_decide; simpl;
      (split; [|split; [|done]]; split; try done;
       try (by intros [? [=]]); eauto).
Qed.

(** X10: [Configure] never drops a diagnostic: what the response held
    before the call, it holds afterwards. *)
Theorem Configure_keeps_earlier_diagnostics (env : os.Environ)
    (req : provider.ConfigureRequest) (resp : provider.ConfigureResponse)
    (d : diag.Diagnostic) :
  d ∈ provider.Diagnostics resp ->
  d ∈ provider.Diagnostics (provider.Configure env req resp).
Proof.
  intros Hd.
  set (Inv := fun r : provider.ConfigureResponse =>
         d ∈ provider.Diagnostics r).
  assert (Hstep : forall r new,
             Inv r -> Inv (provider.setDiagnostics (diag.Append new) r)).
  { intros r new Hr. unfold Inv. simpl. apply elem_of_Append. by left. }
  assert (Hone : forall r path summary detail,
             Inv r ->
             Inv (provider.setDiagnostics
                    (diag.AddAttributeError path summary detail) r)).
  { intros. by apply Hstep. }
  assert (Hclient : forall r a b,
             Inv r ->
             Inv (provider.mkConfigureResponse (provider.Diagnostics r) a b))
    by done.
  change (Inv (provider.Configure env req resp)).
  unfold provider.Configure.
  destruct (tfsdk.Get (provider.Config req) _) as [diags config].
  assert (H0 : Inv (provider.setDiagnostics (diag.Append diags) resp))
    by by apply Hstep.
  revert H0.
  generalize (provider.setDiagnostics (diag.Append diags) resp) as resp0.
  intros resp0 H0. cbv zeta.
  destruct (types.IsUnknown (provider.URL config)),
    (types.IsUnknown (provider.Token config)),
    (decide (provider.resolve env provider.envCfgUrl (provider.URL config)
             = "")),
    (decide (provider.resolve env provider.envCfgToken
               (provider.Token config) = ""));
    repeat match goal with
      | |- Inv (if diag.HasError ?ds then _ else _) =>
        destruct (diag.HasError ds)
      | |- Inv (provider.setDiagnostics (diag.AddAttributeError _ _ _) _) =>
        apply Hone
      | |- Inv (match usgdns.NewClient _ _ with _ => _ end) =>
        unfold usgdns.NewClient; apply Hclient
      end;
    exact H0.
Qed.

(** X11: of the environment, [Configure] reads the values of
    USG_DNS_URL and USG_DNS_TOKEN and nothing else: two environments
    in which [os.Getenv] gives the same two values lead to the same
    response.  A variable set to the empty string is therefore the same
    as a variable that is not set. *)
Theorem Configure_reads_two_variables (env1 env2 : os.Environ)
    (req : provider.ConfigureRequest) (resp : provider.ConfigureResponse) :
  os.Getenv env1 "USG_DNS_URL" = os.Getenv env2 "USG_DNS_URL" ->
  os.Getenv env1 "USG_DNS_TOKEN" = os.Getenv env2 "USG_DNS_TOKEN" ->
  provider.Configure env1 req resp = provider.Configure env2 req resp.
Proof.
  intros Hurl Htoken.
  unfold provider.Configure, provider.resolve, provider.envCfgUrl,
    provider.envCfgToken.
  by rewrite Hurl, Htoken.
Qed.

(** X12: an unknown URL or token stops [Configure], whatever the
    environment and the other value are: no client is constructed, the
    response holds an error, and its diagnostics are unknown-value
    errors only; the environment is no fallback for an unknown
    value. *)
Theorem Configure_stops_at_unknown_value (env : os.Environ)
    (cfg : provider.usgDnsProviderModel) :
  types.IsUnknown (provider.URL cfg) = true \/
  types.IsUnknown (provider.Token cfg) = true ->
  validation.no_client (validation.configure env cfg) /\
  diag.HasError (provider.Diagnostics (validation.configure env cfg)) = true /\
  (types.IsUnknown (provider.URL cfg) = true <->
   provider.unknownUrlDiag ∈
     provider.Diagnostics (validation.configure env cfg)) /\
  (types.IsUnknown (provider.Token cfg) = true <->
   provider.unknownTokenDiag ∈
     provider.Diagnostics (validation.configure env cfg)) /\
  forall d,
    d ∈ provider.Diagnostics (validation.configure env cfg) ->
    d = provider.unknownUrlDiag \/ d = provider.unknownTokenDiag.
Proof.
  intros H. rewrite configure_unknown by done.
  destruct (types.IsUnknown (provider.URL cfg)),
    (types.IsUnknown (provider.Token cfg)); simpl.
  - split; [done|]. split; [done|]. split; [|split].
    + split; [intros _; apply list_elem_of_here | done].
    + split; [intros _; apply list_elem_of_further, list_elem_of_here | done].
    + intros d. rewrite !elem_of_cons, elem_of_nil. tauto.
  - split; [done|]. split; [done|]. split; [|split].
    + split; [intros _; apply list_elem_of_here | done].
    + split; [done|]. intros Hd. apply list_elem_of_singleton in Hd.
      discriminate Hd.
    + intros d Hd. apply list_elem_of_singleton in Hd. by left.
  - split; [done|]. split; [done|]. split; [|split].
    + split; [done|]. intros Hd. apply list_elem_of_singleton in Hd.
      discriminate Hd.
    + split; [intros _; apply list_elem_of_here | done].
    + intros d Hd. apply list_elem_of_singleton in Hd. by right.
  - by destruct H.
Qed.

Lemma Configure_keeps_earlier_diagnostics_witness :
  scenario.warning ∈ provider.Diagnostics scenario.warned_response /\
  scenario.warning ∈
    provider.Diagnostics
      (provider.Configure ∅
         (scenario.config types.StringNull types.StringNull)
         scenario.warned_response).
Proof.
  assert (H : scenario.warning ∈
                provider.Diagnostics scenario.warned_response)
    by apply list_elem_of_here.
  split; [exact H|].
  exact (Configure_keeps_earlier_diagnostics ∅
           (scenario.config types.StringNull types.StringNull)
           scenario.warned_response scenario.warning H).
Defined.

Lemma Configure_reads_two_variables_witness :
  os.Getenv scenario.env_noise "USG_DNS_URL" =
    os.Getenv scenario.env_token_only "USG_DNS_URL" /\
  provider.Configure scenario.env_noise
    (scenario.config types.StringNull types.StringNull)
    provider.emptyConfigureResponse =
  provider.Configure scenario.env_token_only
    (scenario.config types.StringNull types.StringNull)
    provider.emptyConfigureResponse.
Proof.
  split; [vm_compute; reflexivity|].
  apply Configure_reads_two_variables; vm_compute; reflexivity.
Defined.

Lemma Configure_stops_at_unknown_value_witness :
  types.IsUnknown types.StringUnknown = true /\
  os.Getenv scenario.env_both "USG_DNS_URL" = "https://dns.example.com" /\
  validation.no_client
    (validation.configure scenario.env_both
       (provider.mkProviderModel types.StringUnknown
          (types.StringValue "secret"))).
Proof.
  split; [reflexivity|]. split; [vm_compute; reflexivity|].
  apply (Configure_stops_at_unknown_value scenario.env_both
           (provider.mkProviderModel types.StringUnknown
              (types.StringValue "secret"))).
  left. reflexivity.
Defined.

(** * Further properties of the adapters *)

Lemma HasError_Append_mono (new diags : diag.Diagnostics) :
  diag.HasError diags = true -> diag.HasError (diag.Append new diags) = true.
Proof.
  rewrite !HasError_elem. intros (d & Hd & Hsev). exists d.
  split; [|done]. apply elem_of_Append. by left.
Qed.

(** X13: the client that [Configure] of the provider builds is the
    client both adapters hold after their own [Configure] on the
    provider data; when the provider reports an error, the provider
    data is nil and the adapters stay as they are. *)
Theorem adapters_receive_the_configured_client (env : os.Environ)
    (cfg : provider.usgDnsProviderModel)
    (r : provider.recordResource.recordResource)
    (d : provider.recordsDataSource.recordsDataSource)
    (rresp : provider.recordResource.ConfigureResponse)
    (dresp : provider.recordsDataSource.ConfigureResponse) :
  let presp := validation.configure env cfg in
  let configured_resource :=
    provider.recordResource.Configure r
      (provider.recordResource.mkConfigureRequest
         (provider.AnyClient <$> provider.ResourceData presp)) rresp in
  let configured_datasource :=
    provider.recordsDataSource.Configure d
      (provider.recordsDataSource.mkConfigureRequest
         (provider.AnyClient <$> provider.DataSourceData presp)) dresp in
  (diag.HasError (provider.Diagnostics presp) = false ->
   exists client,
     usgdns.NewClient
       (provider.resolve env provider.envCfgUrl (provider.URL cfg))
       (provider.resolve env provider.envCfgToken (provider.Token cfg)) =
       Ok client /\
     configured_resource = (provider.recordResource.mkResource client, rresp) /\
     configured_datasource =
       (provider.recordsDataSource.mkDataSource client, dresp)) /\
  (diag.HasError (provider.Diagnostics presp) = true ->
   configured_resource = (r, rresp) /\ configured_datasource = (d, dresp)).
Proof.
  cbv zeta.
  destruct (types.IsUnknown (provider.URL cfg)) eqn:Hu;
    [|destruct (types.IsUnknown (provider.Token cfg)) eqn:Ht].
  - rewrite configure_unknown by (by left). rewrite Hu. simpl.
    split; [intros [=]|done].
  - rewrite configure_unknown by (by right). rewrite Hu, Ht. simpl.
    split; [intros [=]|done].
  - rewrite configure_known by done. cbv zeta.
    destruct (decide (provider.resolve env provider.envCfgUrl _ = ""));
      [simpl; split; [intros [=]|done]|].
    destruct (decide (provider.resolve env provider.envCfgToken _ = ""));
      [simpl; split; [intros [=]|done]|].
    simpl. split; [|intros [=]].
    intros _. eexists. split; [reflexivity|done].
Qed.

(** X14: provider data of another type than the client leaves the
    adapter as it is, and the response gets an error that names the
    type. *)
Theorem foreign_provider_data_is_refused (goType : string)
    (r : provider.recordResource.recordResource)
    (d : provider.recordsDataSource.recordsDataSource)
    (rresp : provider.recordResource.ConfigureResponse)
    (dresp : provider.recordsDataSource.ConfigureResponse) :
  let refusal :=
    diag.NewErrorDiagnostic "Unexpected Data Source Configure Type"
      ("Expected *usgdns.Client, got: " +:+ goType +:+
       ". Please report this issue to the provider developers.") in
  let configured_resource :=
    provider.recordResource.Configure r
      (provider.recordResource.mkConfigureRequest
         (Some (provider.AnyOther goType))) rresp in
  let configured_datasource :=
    provider.recordsDataSource.Configure d
      (provider.recordsDataSource.mkConfigureRequest
         (Some (provider.AnyOther goType))) dresp in
  configured_resource.1 = r /\
  refusal ∈
    provider.recordResource.ConfigureDiagnostics configured_resource.2 /\
  diag.HasError
    (provider.recordResource.ConfigureDiagnostics configured_resource.2) =
    true /\
  configured_datasource.1 = d /\
  refusal ∈
    provider.recordsDataSource.ConfigureDiagnostics configured_datasource.2 /\
  diag.HasError
    (provider.recordsDataSource.ConfigureDiagnostics
       configured_datasource.2) = true.
Proof.
  cbv zeta. simpl. unfold diag.AddError.
  repeat split;
    try (apply elem_of_Append; right; apply list_elem_of_here);
    by apply HasError_Append_error.
Qed.

Lemma adapters_receive_the_configured_client_witness :
  diag.HasError
    (provider.Diagnostics
       (validation.configure scenario.env_both
          (provider.mkProviderModel types.StringNull types.StringNull))) =
    false /\
  (provider.recordResource.Configure
     (provider.recordResource.mkResource scenario.broken_client)
     (provider.recordResource.mkConfigureRequest
        (provider.AnyClient <$>
           provider.ResourceData
             (validation.configure scenario.env_both
                (provider.mkProviderModel types.StringNull
                   types.StringNull))))
     (provider.recordResource.mkConfigureResponse [])).1 =
  scenario.resource.
Proof.
  split; [vm_compute; reflexivity|].
  destruct (proj1 (adapters_receive_the_configured_client scenario.env_both
              (provider.mkProviderModel types.StringNull types.StringNull)
              (provider.recordResource.mkResource scenario.broken_client)
              scenario.datasource
              (provider.recordResource.mkConfigureResponse [])
              (provider.recordsDataSource.mkConfigureResponse [])))
    as (client & Hnew & Hres & _).
  - vm_compute. reflexivity.
  - rewrite Hres. simpl. vm_compute in Hnew. by injection Hnew as <-.
Defined.

Section record_resource_more.
Context `{RT : Runtime}.
Import provider provider.recordResource.

(** X15: [Update] addresses the record by the ID of the prior state and
    sends the name and target of the plan.  On success the state
    becomes the record the remote end returned, its ID included, and no
    diagnostic is added; on failure an error is reported and the state
    is left as it was.  Either way the log holds the prior state. *)
Theorem Update_persists_returned_record (r : recordResource)
    (state plan : recordResourceModel) (resp : UpdateResponse)
    (net : usgdns.Net) :
  diag.HasError (UpdateDiagnostics resp) = false ->
  (forall (net' : usgdns.Net) (record : DnsRecord),
     usgdns.UpdateRecord (client r) (types.ValueString (ID state))
       (types.ValueString (Name plan)) (types.ValueString (Target plan))
       net = (net', Ok record) ->
     Update r (mkUpdateRequest (Some state) (Some plan)) resp net =
     (net', [("plan:", state)],
      mkUpdateResponse
        (Some (mkRecordModel (types.StringValue (db.ID record))
                 (types.StringValue (db.Name record))
                 (types.StringValue (db.Target record))))
        (UpdateDiagnostics resp))) /\
  (forall (net' : usgdns.Net) (err : error),
     usgdns.UpdateRecord (client r) (types.ValueString (ID state))
       (types.ValueString (Name plan)) (types.ValueString (Target plan))
       net = (net', Err err) ->
     exists resp' : UpdateResponse,
       Update r (mkUpdateRequest (Some state) (Some plan)) resp net =
         (net', [("plan:", state)], resp') /\
       UpdateState resp' = UpdateState resp /\
       diag.NewErrorDiagnostic "Error Updating usg-dns record"
         ("Could not update record, unexpected error: " +:+ err)
         ∈ UpdateDiagnostics resp' /\
       diag.HasError (UpdateDiagnostics resp') = true).
Proof.
  intros Hclean. unfold Update. simpl. rewrite Hclean. simpl.
  rewrite ?Hclean. split.
  - intros net' record ->. reflexivity.
  - intros net' err ->. eexists. split; [reflexivity|]. simpl.
    split; [done|]. split.
    + apply elem_of_Append. right. apply list_elem_of_here.
    + by apply HasError_Append_error.
Qed.

(** X16: [Delete] asks the remote end to delete the record with the ID
    of the state.  On success it leaves the response exactly as it was:
    it adds no diagnostic and does not write the state; on failure it
    reports the error and the state is left as it was. *)
Theorem Delete_reports_only_failures (r : recordResource)
    (state : recordResourceModel) (resp : DeleteResponse)
    (net : usgdns.Net) :
  diag.HasError (DeleteDiagnostics resp) = false ->
  (forall net' : usgdns.Net,
     usgdns.DeleteRecord (client r) (types.ValueString (ID state)) net =
       (net', None) ->
     Delete r (mkDeleteRequest (Some state)) resp net = (net', resp)) /\
  (forall (net' : usgdns.Net) (err : error),
     usgdns.DeleteRecord (client r) (types.ValueString (ID state)) net =
       (net', Some err) ->
     exists resp' : DeleteResponse,
       Delete r (mkDeleteRequest (Some state)) resp net = (net', resp') /\
       DeleteState resp' = DeleteState resp /\
       diag.NewErrorDiagnostic "Error Deleting usg-dns record"
         ("Could not delete record, unexpected error: " +:+ err)
         ∈ DeleteDiagnostics resp' /\
       diag.HasError (DeleteDiagnostics resp') = true).
Proof.
  intros Hclean. unfold Delete. simpl. rewrite Hclean. split.
  - intros net' ->. by destruct resp.
  - intros net' err ->. eexists. split; [reflexivity|]. simpl.
    split; [done|]. split.
    + apply elem_of_Append. right. apply list_elem_of_here.
    + by apply HasError_Append_error.
Qed.

(** X17: a null plan or state, or a response that already holds an
    error, makes [Create], [Read], [Update] and [Delete] return before
    they call the client: nothing is sent, the state of the response is
    left as it was, and the response holds an error. *)
Theorem nothing_sent_without_input (r : recordResource)
    (net : usgdns.Net) :
  (forall req resp,
     Plan req = None \/ diag.HasError (CreateDiagnostics resp) = true ->
     (Create r req resp net).1 = net /\
     CreateState (Create r req resp net).2 = CreateState resp /\
     diag.HasError (CreateDiagnostics (Create r req resp net).2) = true) /\
  (forall req resp,
     State req = None \/ diag.HasError (ReadDiagnostics resp) = true ->
     (Read r req resp net).1 = net /\
     ReadState (Read r req resp net).2 = ReadState resp /\
     diag.HasError (ReadDiagnostics (Read r req resp net).2) = true) /\
  (forall req resp,
     PriorState req = None \/ PlannedState req = None \/
     diag.HasError (UpdateDiagnostics resp) = true ->
     (Update r req resp net).1 = (net, []) /\
     UpdateState (Update r req resp net).2 = UpdateState resp /\
     diag.HasError (UpdateDiagnostics (Update r req resp net).2) = true) /\
  (forall req resp,
     DeletedState req = None \/
     diag.HasError (DeleteDiagnostics resp) = true ->
     (Delete r req resp net).1 = net /\
     DeleteState (Delete r req resp net).2 = DeleteState resp /\
     diag.HasError (DeleteDiagnostics (Delete r req resp net).2) = true).
Proof.
  assert (Hnull : forall diags,
            diag.HasError (diag.Append [tfsdk.conversion_error] diags) = true).
  { intros diags. by apply HasError_Append_error. }
  split; [|split; [|split]].
  - intros [plan] resp H. unfold Create, tfsdk.Get. simpl in H.
    destruct plan as [plan|].
    + destruct H as [[=]|H]. simpl. by rewrite H.
    + pose proof (Hnull (CreateDiagnostics resp)) as Hn.
      simpl in Hn |- *. by rewrite Hn.
  - intros [state] resp H. unfold Read, tfsdk.Get. simpl in H.
    destruct state as [state|].
    + destruct H as [[=]|H]. simpl. by rewrite H.
    + pose proof (Hnull (ReadDiagnostics resp)) as Hn.
      simpl in Hn |- *. by rewrite Hn.
  - intros [state plan] resp H. unfold Update, tfsdk.Get. simpl in H.
    destruct state as [state|].
    + simpl.
      destruct (diag.HasError (UpdateDiagnostics resp)) eqn:Herr; [done|].
      destruct plan as [plan|].
      * by destruct H as [[=]|[[=]|[=]]].
      * pose proof (Hnull (UpdateDiagnostics resp)) as Hn.
        simpl in Hn |- *. by rewrite Hn.
    + pose proof (Hnull (UpdateDiagnostics resp)) as Hn.
      simpl in Hn |- *. by rewrite Hn.
  - intros [state] resp H. unfold Delete, tfsdk.Get. simpl in H.
    destruct state as [state|].
    + destruct H as [[=]|H]. simpl. by rewrite H.
    + pose proof (Hnull (DeleteDiagnostics resp)) as Hn.
      simpl in Hn |- *. by rewrite Hn.
Qed.

(** X18: refreshing twice is refreshing once: when the remote end
    answers the second [GetRecord] with the record of the first, the
    second [Read] leaves the response of the first as it is. *)
Theorem Read_twice_is_Read_once (r : recordResource)
    (state : recordResourceModel) (resp : ReadResponse)
    (net net1 net2 : usgdns.Net) (record : DnsRecord) :
  diag.HasError (ReadDiagnostics resp) = false ->
  usgdns.GetRecord (client r) (types.ValueString (ID state)) net =
    (net1, Ok record) ->
  usgdns.GetRecord (client r) (types.ValueString (ID state)) net1 =
    (net2, Ok record) ->
  let first := Read r (mkReadRequest (Some state)) resp net in
  first.1 = net1 /\
  Read r (mkReadRequest (ReadState first.2)) first.2 first.1 =
    (net2, first.2).
Proof.
  intros Hclean Hget1 Hget2. cbv zeta.
  assert (Hfirst : Read r (mkReadRequest (Some state)) resp net =
            (net1,
             mkReadResponse
               (Some (mkRecordModel (ID state)
                        (types.StringValue (db.Name record))
                        (types.StringValue (db.Target record))))
               (ReadDiagnostics resp))).
  { unfold Read. simpl. by rewrite Hclean, Hget1. }
  rewrite Hfirst. simpl. split; [done|].
  unfold Read. simpl. by rewrite Hclean, Hget2.
Qed.

(** X19: the [Read] that follows a successful [Create] asks for the ID
    the remote end has assigned, keeps that ID, and takes the name and
    the target from the answer; when the answer is the created record,
    the state does not change. *)
Theorem Read_after_Create (r : recordResource)
    (plan : recordResourceModel) (resp : CreateResponse)
    (net net1 net2 : usgdns.Net) (created answer : DnsRecord) :
  diag.HasError (CreateDiagnostics resp) = false ->
  usgdns.CreateRecord (client r) (types.ValueString (Name plan))
    (types.ValueString (Target plan)) net = (net1, Ok created) ->
  usgdns.GetRecord (client r) (db.ID created) net1 = (net2, Ok answer) ->
  let first := Create r (mkCreateRequest (Some plan)) resp net in
  let second :=
    Read r (mkReadRequest (CreateState first.2))
      (mkReadResponse (CreateState first.2) (CreateDiagnostics first.2))
      first.1 in
  second =
    (net2,
     mkReadResponse
       (Some (mkRecordModel (types.StringValue (db.ID created))
                (types.StringValue (db.Name answer))
                (types.StringValue (db.Target answer))))
       (CreateDiagnostics resp)) /\
  (db.Name answer = db.Name created ->
   db.Target answer = db.Target created ->
   ReadState second.2 = CreateState first.2).
Proof.
  intros Hclean Hcreate Hget. cbv zeta.
  unfold Create. simpl. rewrite Hclean, Hcreate. simpl.
  unfold Read. simpl. rewrite Hclean, Hget. simpl.
  split; [done|]. by intros -> ->.
Qed.


(** X22: the message with which the remote end refuses a creation
    reaches the user: it is the end of the detail of the error
    diagnostic of [Create], after the status. *)
Theorem Create_reports_the_message_of_the_remote_end (r : recordResource)
    (plan : recordResourceModel) (resp : CreateResponse)
    (net net' : usgdns.Net) (res : http.Response) (body message : string) :
  diag.HasError (CreateDiagnostics resp) = false ->
  usgdns.do (client r) "POST" "/records"
    (Some {| db.ID := "";
             db.Name := types.ValueString (Name plan);
             db.Target := types.ValueString (Target plan) |}) net =
    (net', Ok res) ->
  http.StatusCode res ≠ 201 ->
  http.Body res = Ok body ->
  json_Unmarshal_Message body = Ok message ->
  message ≠ "" ->
  diag.NewErrorDiagnostic "Unable to create the usg-dns record"
    ("error while executing the request: unexpected status code: " +:+
     pretty (http.StatusCode res) +:+ ": " +:+ message)
    ∈ CreateDiagnostics
        (Create r (mkCreateRequest (Some plan)) resp net).2 /\
  CreateState (Create r (mkCreateRequest (Some plan)) resp net).2 =
    CreateState resp.
Proof.
  intros Hclean Hdo Hst Hbody Hmsg Hne.
  unfold Create. simpl. rewrite Hclean.
  unfold usgdns.CreateRecord. fold http.MethodPost in Hdo. rewrite Hdo.
  cbv zeta. rewrite decide_True by done.
  unfold usgdns.getError, usgdns.unmarshal. rewrite Hbody, Hmsg.
  rewrite decide_True by done. simpl. split; [|done].
  apply elem_of_Append. right. apply list_elem_of_here.
Qed.

End record_resource_more.

Section records_data_source_more.
Context `{RT : Runtime}.
Import provider provider.recordsDataSource.

(** X21: the data source asks the remote end whatever the response
    holds already; when [GetRecords] fails, the error is reported with
    its text and the state of the response is left as it was. *)
Theorem data_source_reports_failure (d : recordsDataSource)
    (resp : ReadResponse) (net net' : usgdns.Net) (err : error) :
  usgdns.GetRecords (client d) net = (net', Err err) ->
  exists resp' : ReadResponse,
    Read d resp net = (net', resp') /\
    State resp' = State resp /\
    diag.NewErrorDiagnostic "Unable to fetch the usg-dns records" err
      ∈ Diagnostics resp' /\
    diag.HasError (Diagnostics resp') = true.
Proof.
  intros Hget. unfold Read. rewrite Hget. eexists.
  split; [reflexivity|]. simpl. split; [done|]. split.
  - apply elem_of_Append. right. apply list_elem_of_here.
  - by apply HasError_Append_error.
Qed.

End records_data_source_more.

(** ** The further properties on the scenarios *)

Lemma Update_persists_returned_record_witness :
  diag.HasError [] = false /\
  @usgdns.UpdateRecord scenario.serving scenario.example_client
    "42" "www" "1.2.3.4" [] =
    ([scenario.update_request], Ok scenario.record_www) /\
  @provider.recordResource.Update scenario.serving scenario.resource
    (provider.recordResource.mkUpdateRequest (Some scenario.state_www)
       (Some scenario.plan_www))
    (provider.recordResource.mkUpdateResponse (Some scenario.state_www) [])
    [] =
  ([scenario.update_request], [("plan:", scenario.state_www)],
   provider.recordResource.mkUpdateResponse
     (Some (provider.mkRecordModel (types.StringValue "42")
              (types.StringValue "www") (types.StringValue "1.2.3.4")))
     []).
Proof.
  split; [reflexivity|]. split; [vm_compute; reflexivity|].
  apply (proj1 (@Update_persists_returned_record scenario.serving
                  scenario.resource scenario.state_www scenario.plan_www
                  (provider.recordResource.mkUpdateResponse
                     (Some scenario.state_www) []) [] eq_refl)
           [scenario.update_request] scenario.record_www).
  vm_compute. reflexivity.
Defined.

Lemma Delete_reports_only_failures_witness :
  diag.HasError [] = false /\
  @usgdns.DeleteRecord scenario.deleting scenario.example_client "42" [] =
    ([scenario.delete_request], None) /\
  @provider.recordResource.Delete scenario.deleting scenario.resource
    (provider.recordResource.mkDeleteRequest (Some scenario.state_www))
    (provider.recordResource.mkDeleteResponse (Some scenario.state_www) [])
    [] =
  ([scenario.delete_request],
   provider.recordResource.mkDeleteResponse (Some scenario.state_www) []).
Proof.
  split; [reflexivity|]. split; [vm_compute; reflexivity|].
  apply (proj1 (@Delete_reports_only_failures scenario.deleting
                  scenario.resource scenario.state_www
                  (provider.recordResource.mkDeleteResponse
                     (Some scenario.state_www) []) [] eq_refl)
           [scenario.delete_request]).
  vm_compute. reflexivity.
Defined.

Lemma nothing_sent_without_input_witness :
  provider.recordResource.Plan
    (provider.recordResource.mkCreateRequest None) = None /\
  (@provider.recordResource.Create scenario.creating scenario.resource
     (provider.recordResource.mkCreateRequest None)
     (provider.recordResource.mkCreateResponse None []) []).1 = [].
Proof.
  split; [reflexivity|].
  apply (proj1 (@nothing_sent_without_input scenario.creating
                  scenario.resource [])
           (provider.recordResource.mkCreateRequest None)
           (provider.recordResource.mkCreateResponse None [])).
  left. reflexivity.
Defined.

Lemma Read_twice_is_Read_once_witness :
  diag.HasError [] = false /\
  @usgdns.GetRecord scenario.serving scenario.example_client "42" [] =
    ([scenario.get_request], Ok scenario.record_www) /\
  @usgdns.GetRecord scenario.serving scenario.example_client "42"
    [scenario.get_request] =
    ([scenario.get_request; scenario.get_request], Ok scenario.record_www) /\
  (@provider.recordResource.Read scenario.serving scenario.resource
     (provider.recordResource.mkReadRequest (Some scenario.state_www))
     (provider.recordResource.mkReadResponse (Some scenario.state_www) [])
     []).1 = [scenario.get_request].
Proof.
  split; [reflexivity|]. split; [vm_compute; reflexivity|].
  split; [vm_compute; reflexivity|].
  apply (@Read_twice_is_Read_once scenario.serving scenario.resource
           scenario.state_www
           (provider.recordResource.mkReadResponse
              (Some scenario.state_www) [])
           [] [scenario.get_request]
           [scenario.get_request; scenario.get_request]
           scenario.record_www eq_refl).
  - vm_compute. reflexivity.
  - vm_compute. reflexivity.
Defined.

Lemma Read_after_Create_witness :
  diag.HasError [] = false /\
  @usgdns.CreateRecord scenario.storing scenario.example_client
    "www" "1.2.3.4" [] =
    ([scenario.create_request], Ok scenario.record_www) /\
  @usgdns.GetRecord scenario.storing scenario.example_client "42"
    [scenario.create_request] =
    ([scenario.create_request; scenario.get_request],
     Ok scenario.record_www) /\
  @provider.recordResource.Read scenario.storing scenario.resource
    (provider.recordResource.mkReadRequest
       (provider.recordResource.CreateState
          (@provider.recordResource.Create scenario.storing
             scenario.resource
             (provider.recordResource.mkCreateRequest
                (Some scenario.plan_www))
             (provider.recordResource.mkCreateResponse None []) []).2))
    (provider.recordResource.mkReadResponse
       (provider.recordResource.CreateState
          (@provider.recordResource.Create scenario.storing
             scenario.resource
             (provider.recordResource.mkCreateRequest
                (Some scenario.plan_www))
             (provider.recordResource.mkCreateResponse None []) []).2)
       (provider.recordResource.CreateDiagnostics
          (@provider.recordResource.Create scenario.storing
             scenario.resource
             (provider.recordResource.mkCreateRequest
                (Some scenario.plan_www))
             (provider.recordResource.mkCreateResponse None []) []).2))
    (@provider.recordResource.Create scenario.storing scenario.resource
       (provider.recordResource.mkCreateRequest (Some scenario.plan_www))
       (provider.recordResource.mkCreateResponse None []) []).1 =
  ([scenario.create_request; scenario.get_request],
   provider.recordResource.mkReadResponse
     (Some (provider.mkRecordModel (types.StringValue "42")
              (types.StringValue "www") (types.StringValue "1.2.3.4")))
     []).
Proof.
  split; [reflexivity|]. split; [vm_compute; reflexivity|].
  split; [vm_compute; reflexivity|].
  apply (@Read_after_Create scenario.storing scenario.resource
           scenario.plan_www
           (provider.recordResource.mkCreateResponse None [])
           [] [scenario.create_request]
           [scenario.create_request; scenario.get_request]
           scenario.record_www scenario.record_www eq_refl).
  - vm_compute. reflexivity.
  - vm_compute. reflexivity.
Defined.


Lemma Create_reports_the_message_of_the_remote_end_witness :
  diag.HasError [] = false /\
  (400 : Z) ≠ 201 /\
  @json_Unmarshal_Message scenario.refusing scenario.body_conflict =
    Ok "name already exists" /\
  diag.NewErrorDiagnostic "Unable to create the usg-dns record"
    "error while executing the request: unexpected status code: 400: name already exists"
    ∈ provider.recordResource.CreateDiagnostics
        (@provider.recordResource.Create scenario.refusing scenario.resource
           (provider.recordResource.mkCreateRequest (Some scenario.plan_www))
           (provider.recordResource.mkCreateResponse None []) []).2.
Proof.
  split; [reflexivity|]. split; [lia|]. split; [vm_compute; reflexivity|].
  apply (@Create_reports_the_message_of_the_remote_end scenario.refusing
           scenario.resource scenario.plan_www
           (provider.recordResource.mkCreateResponse None [])
           [] [scenario.create_request]
           (http.mkResponse 400 (Ok scenario.body_conflict))
           scenario.body_conflict "name already exists" eq_refl).
  - vm_compute. reflexivity.
  - simpl. lia.
  - reflexivity.
  - vm_compute. reflexivity.
  - discriminate.
Defined.

Lemma data_source_reports_failure_witness :
  @usgdns.GetRecords scenario.failing scenario.example_client [] =
    ([scenario.list_request],
     Err "error while executing the request: unexpected status code: 500") /\
  exists resp',
    @provider.recordsDataSource.Read scenario.failing scenario.datasource
      (provider.recordsDataSource.mkReadResponse None []) [] =
      ([scenario.list_request], resp') /\
    provider.recordsDataSource.State resp' = None.
Proof.
  split; [vm_compute; reflexivity|].
  destruct (@data_source_reports_failure scenario.failing
              scenario.datasource
              (provider.recordsDataSource.mkReadResponse None []) []
              [scenario.list_request]
              "error while executing the request: unexpected status code: 500")
    as (resp' & Hread & Hstate & _).
  - vm_compute. reflexivity.
  - exists resp'. by split.
Defined.
